(** * DataAcq: waveform acquisition from a Tektronix TDS 3034

    A shallow embedding of [DataAcq.py].  The script talks to the
    oscilloscope over a serial line, reads for every selected channel the
    waveform preamble and the ASCII curve, scales the samples and writes one
    CSV file per channel.

    Python floats and NumPy [float64] values are IEEE binary64 numbers; they
    are modelled by Rocq's primitive floats, whose operations are the same
    correctly rounded binary64 operations.  The library functions the script
    calls ([float], [round], [numpy.round], [str.split], [str.find]) are
    written out as executable definitions; SciPy's [savgol_filter] is a
    parameter of the machine the script runs on.

    Left out: the creation of the output directory, the text that [csv] and
    [print] produce for a number (cells and printed pieces are kept as
    values), and bytes that are not ASCII. *)

From Stdlib Require Import ZArith List String Ascii Bool Lia Sorted.
From Stdlib Require Import DecimalString.
From Stdlib Require Import PrimFloat FloatOps SpecFloat.
Import ListNotations.

Set Warnings "-inexact-float".

Local Open Scope string_scope.
Local Open Scope Z_scope.

(** ** Binary64 helpers *)

(** The type of Python floats and of NumPy [float64] elements. *)
Abbreviation float64 := PrimFloat.float (only parsing).

Module F64.

(** The binary64 number nearest to [n / d] (ties to even), with sign
    [neg]: what a correctly rounded decimal-to-binary conversion returns. *)
Definition of_ratio (neg : bool) (n d : positive) : float64 :=
  SF2Prim (SFdiv prec emax (S754_finite neg n 0) (S754_finite false d 0)).

Definition signed_zero (neg : bool) : float64 :=
  if neg then neg_zero else zero.

(** [float(x)] for a Python [int]. *)
Definition of_Z (z : Z) : float64 :=
  SF2Prim (binary_normalize prec emax z 0 false).

(** Nearest integer to [n / d] for [0 <= n], [0 < d], ties to even. *)
Definition div_half_even (n d : Z) : Z :=
  let q := n / d in
  match (2 * (n mod d) ?= d) with
  | Lt => q
  | Gt => q + 1
  | Eq => if Z.even q then q else q + 1
  end.

(** C's [rint] in the default rounding mode. *)
Definition rint (x : float64) : float64 :=
  match Prim2SF x with
  | S754_finite s m e =>
      if 0 <=? e then x
      else
        let k := div_half_even (Zpos m) (2 ^ (- e)) in
        SF2Prim (binary_normalize prec emax (cond_Zopp s k) 0 s)
  | _ => x
  end.

End F64.

(** ** Python and NumPy numerics *)

(** [round(x, ndigits)] on a float, for [0 <= ndigits <= 323] (CPython's
    [double_round]): the exact value of [x] is rounded half-even to
    [ndigits] decimal places and the decimal result is converted back to the
    nearest binary64 number.  Infinities and NaN round to themselves. *)
Definition round (x : float64) (ndigits : Z) : float64 :=
  match Prim2SF x with
  | S754_finite s m e =>
      let p := 10 ^ ndigits in
      let k := if 0 <=? e then Zpos m * 2 ^ e * p
               else F64.div_half_even (Zpos m * p) (2 ^ (- e)) in
      match k, p with
      | Zpos k', Zpos p' => F64.of_ratio s k' p'
      | _, _ => F64.signed_zero s
      end
  | _ => x
  end.

(** NumPy's [power_of_ten]: a table up to [1e8], then repeated products. *)
Definition power_of_ten (n : Z) : float64 :=
  if n <? 9 then F64.of_Z (10 ^ n)
  else Z.iter (n - 9) (fun r => r * 10)%float 1e9%float.

(** [numpy.round(a, decimals)] on one [float64] element, [0 <= decimals]:
    multiply by [10**decimals], [rint], divide. *)
Definition np_round (x : float64) (decimals : Z) : float64 :=
  if decimals =? 0 then F64.rint x
  else
    let f := power_of_ten decimals in
    (F64.rint (x * f) / f)%float.

(** ** Python strings *)

Definition LF : string := String (ascii_of_nat 10) EmptyString.

(** [s[:-1]]: everything but the last character. *)
Fixpoint drop_last (s : string) : string :=
  match s with
  | EmptyString => EmptyString
  | String c r =>
      match r with
      | EmptyString => EmptyString
      | String _ _ => String c (drop_last r)
      end
  end.

(** [s.split(sep)] for a one-character separator. *)
Fixpoint split (sep : ascii) (s : string) : list string :=
  match s with
  | EmptyString => [EmptyString]
  | String c r =>
      if Ascii.eqb c sep then EmptyString :: split sep r
      else match split sep r with
           | h :: t => String c h :: t
           | [] => [String c EmptyString]
           end
  end.

(** Number of occurrences of a character. *)
Fixpoint count_char (sep : ascii) (s : string) : nat :=
  match s with
  | EmptyString => O
  | String c r => ((if Ascii.eqb c sep then 1 else 0) + count_char sep r)%nat
  end.

(** [s.find(sub)]: the lowest index of [sub] in [s], or [-1]. *)
Definition find (s sub : string) : Z :=
  match index 0 sub s with
  | Some n => Z.of_nat n
  | None => -1
  end.

(** [s.replace(a, b)] for one-character [a] and [b]. *)
Fixpoint replace (a b : ascii) (s : string) : string :=
  match s with
  | EmptyString => EmptyString
  | String c r => String (if Ascii.eqb c a then b else c) (replace a b r)
  end.

(** [str(i)] for an [int]. *)
Definition str (i : Z) : string := NilZero.string_of_int (Z.to_int i).

(** [l[i]] on a list, [0 <= i]: [None] stands for [IndexError]. *)
Definition item {A : Type} (l : list A) (i : nat) : option A := nth_error l i.

(** ** [float(s)] on a string

    CPython's [PyFloat_FromString] on ASCII text: underscores are accepted
    between digits, white space is stripped on both sides, then the whole
    text has to be [inf], [infinity], [nan] or a decimal literal with an
    optional sign, fraction and exponent.  The value is the nearest
    binary64 number.  [None] stands for [ValueError]. *)

Module PyFloat.

Definition is_digit (c : ascii) : bool :=
  let n := nat_of_ascii c in ((48 <=? n) && (n <=? 57))%nat.

Definition is_space (c : ascii) : bool :=
  let n := nat_of_ascii c in ((n =? 32) || ((9 <=? n) && (n <=? 13)))%nat.

Definition is_underscore (c : ascii) : bool := Ascii.eqb c "_"%char.

Definition to_lower (c : ascii) : ascii :=
  let n := nat_of_ascii c in
  if ((65 <=? n) && (n <=? 90))%nat then ascii_of_nat (n + 32) else c.

Fixpoint lower (s : string) : string :=
  match s with
  | EmptyString => EmptyString
  | String c r => String (to_lower c) (lower r)
  end.

(** An underscore must follow a digit and precede a digit. *)
Fixpoint remove_underscores (prev : option ascii) (s : string) : option string :=
  match s with
  | EmptyString =>
      match prev with
      | Some p => if is_underscore p then None else Some EmptyString
      | None => Some EmptyString
      end
  | String c r =>
      if is_underscore c then
        match prev with
        | Some p => if is_digit p then remove_underscores (Some c) r else None
        | None => None
        end
      else
        let after_underscore :=
          match prev with Some p => is_underscore p | None => false end in
        if after_underscore && negb (is_digit c) then None
        else option_map (String c) (remove_underscores (Some c) r)
  end.

Fixpoint lstrip (s : string) : string :=
  match s with
  | EmptyString => EmptyString
  | String c r => if is_space c then lstrip r else s
  end.

Fixpoint rstrip (s : string) : string :=
  match s with
  | EmptyString => EmptyString
  | String c r =>
      match rstrip r with
      | EmptyString => if is_space c then EmptyString else String c EmptyString
      | r' => String c r'
      end
  end.

(** The longest prefix of digits, and the rest. *)
Fixpoint span_digits (s : string) : string * string :=
  match s with
  | EmptyString => (EmptyString, EmptyString)
  | String c r =>
      if is_digit c then let (d, rest) := span_digits r in (String c d, rest)
      else (EmptyString, s)
  end.

Fixpoint digits_value (acc : Z) (s : string) : Z :=
  match s with
  | EmptyString => acc
  | String c r => digits_value (10 * acc + (Z.of_nat (nat_of_ascii c) - 48)) r
  end.

Definition take_sign (s : string) : bool * string :=
  match s with
  | String "-"%char r => (true, r)
  | String "+"%char r => (false, r)
  | _ => (false, s)
  end.

(** The nearest binary64 number to [(-1)^neg * mant * 10^e10]. *)
Definition of_decimal (neg : bool) (mant e10 : Z) : float64 :=
  match mant with
  | Zpos m =>
      if 0 <=? e10 then F64.of_ratio neg (m * Z.to_pos (10 ^ e10)) 1
      else F64.of_ratio neg m (Z.to_pos (10 ^ (- e10)))
  | _ => F64.signed_zero neg
  end.

Definition parse_exponent (s : string) : option (Z * string) :=
  match s with
  | String c r =>
      if Ascii.eqb (to_lower c) "e"%char then
        let (eneg, r1) := take_sign r in
        let (ed, r2) := span_digits r1 in
        match ed with
        | EmptyString => None
        | _ => Some (cond_Zopp eneg (digits_value 0 ed), r2)
        end
      else Some (0, s)
  | EmptyString => Some (0, s)
  end.

Definition parse_stripped (s : string) : option float64 :=
  let (neg, s1) := take_sign s in
  let l := lower s1 in
  if String.eqb l "inf" || String.eqb l "infinity" then
    Some (if neg then neg_infinity else infinity)
  else if String.eqb l "nan" then Some nan
  else
    let (ip, s2) := span_digits s1 in
    let (fp, s3) :=
      match s2 with
      | String "."%char r => span_digits r
      | _ => (EmptyString, s2)
      end in
    match (ip ++ fp)%string with
    | EmptyString => None
    | ds =>
        match parse_exponent s3 with
        | Some (ex, EmptyString) =>
            Some (of_decimal neg (digits_value 0 ds)
                             (ex - Z.of_nat (String.length fp)))
        | _ => None
        end
    end.

Definition float (s : string) : option float64 :=
  match remove_underscores None s with
  | Some s' => parse_stripped (rstrip (lstrip s'))
  | None => None
  end.

End PyFloat.

Definition float := PyFloat.float.

(** ** The outside world

    The serial port, the console, the plot window and the file system are
    collaborators of the script; the model records what the script does to
    them.  The instrument is given by the lines it will answer, in order. *)

(** A piece of a printed line or a CSV cell. *)
Inductive cell : Type :=
| CStr (s : string)
| CNum (x : float64)
| CList (l : list string).

Definition row : Type := list cell.

Record csv_file : Type := {
  file_dir : string;          (* first argument of [os.path.join] *)
  file_name : string;         (* second argument of [os.path.join] *)
  file_rows : list row
}.

Inductive plot_call : Type :=
| Figure
| Suptitle (title : string)
| Scatter (x y : list float64)
| Plot (x y : list float64)
| Show.

(** What [ser.open()] does on this machine. *)
Inductive open_behaviour : Type :=
| Opens                (* the port is open afterwards *)
| StaysClosed          (* returns, [ser.is_open] is still false *)
| OpenRaises.          (* raises [SerialException] *)

Inductive exn : Type :=
| IndexError
| ValueError
| SerialException.

Record world : Type := {
  rx : list string;           (* lines still to come from the instrument *)
  tx : list string;           (* commands written, oldest first *)
  is_open : bool;             (* [ser.is_open] *)
  close_calls : nat;          (* number of [ser.close()] calls *)
  stdout : list row;          (* one entry per [print] *)
  files : list csv_file;      (* files written, oldest first *)
  plots : list plot_call
}.

Definition set_rx (w : world) (v : list string) : world :=
  {| rx := v; tx := tx w; is_open := is_open w; close_calls := close_calls w;
     stdout := stdout w; files := files w; plots := plots w |}.
Definition set_tx (w : world) (v : list string) : world :=
  {| rx := rx w; tx := v; is_open := is_open w; close_calls := close_calls w;
     stdout := stdout w; files := files w; plots := plots w |}.
Definition set_is_open (w : world) (v : bool) : world :=
  {| rx := rx w; tx := tx w; is_open := v; close_calls := close_calls w;
     stdout := stdout w; files := files w; plots := plots w |}.
Definition set_close_calls (w : world) (v : nat) : world :=
  {| rx := rx w; tx := tx w; is_open := is_open w; close_calls := v;
     stdout := stdout w; files := files w; plots := plots w |}.
Definition set_stdout (w : world) (v : list row) : world :=
  {| rx := rx w; tx := tx w; is_open := is_open w; close_calls := close_calls w;
     stdout := v; files := files w; plots := plots w |}.
Definition set_files (w : world) (v : list csv_file) : world :=
  {| rx := rx w; tx := tx w; is_open := is_open w; close_calls := close_calls w;
     stdout := stdout w; files := v; plots := plots w |}.
Definition set_plots (w : world) (v : list plot_call) : world :=
  {| rx := rx w; tx := tx w; is_open := is_open w; close_calls := close_calls w;
     stdout := stdout w; files := files w; plots := v |}.

(** The world before the script starts: nothing sent, printed or written,
    the port not open, the instrument ready to answer [device]. *)
Definition initial (device : list string) : world :=
  {| rx := device; tx := []; is_open := false; close_calls := O;
     stdout := []; files := []; plots := [] |}.

(** ** The script's effects: state and exceptions *)

Inductive result (A : Type) : Type :=
| Ok (a : A)
| SysExit                     (* [sys.exit()] *)
| Raised (e : exn).           (* an exception nobody catches *)
Arguments Ok {A} a.
Arguments SysExit {A}.
Arguments Raised {A} e.

Definition M (A : Type) : Type := world -> result A * world.

Definition ret {A : Type} (a : A) : M A := fun w => (Ok a, w).

Definition bind {A B : Type} (m : M A) (k : A -> M B) : M B :=
  fun w =>
    match m w with
    | (Ok a, w') => k a w'
    | (SysExit, w') => (SysExit, w')
    | (Raised e, w') => (Raised e, w')
    end.

Definition raise {A : Type} (e : exn) : M A := fun w => (Raised e, w).

Definition sys_exit {A : Type} : M A := fun w => (SysExit, w).

Declare Scope py_scope.
Delimit Scope py_scope with py.
Notation "x <- m ;; k" := (bind m (fun x => k))
  (at level 61, m at next level, right associativity) : py_scope.
Notation "m ;; k" := (bind m (fun _ => k))
  (at level 61, right associativity) : py_scope.
Local Open Scope py_scope.

(** An operation that returns or raises. *)
Definition orraise {A : Type} (e : exn) (o : option A) : M A :=
  match o with
  | Some a => ret a
  | None => raise e
  end.

(** [if c: body] *)
Definition when (c : bool) (body : M unit) : M unit :=
  if c then body else ret tt.

(** [for x in l: body x] *)
Fixpoint for_each {A : Type} (l : list A) (body : A -> M unit) : M unit :=
  match l with
  | [] => ret tt
  | x :: l' => body x ;; for_each l' body
  end.

(** [[f(x) for x in l]] where [f] may raise: stops at the first failure. *)
Fixpoint traverse {A B : Type} (f : A -> option B) (l : list A) : option (list B) :=
  match l with
  | [] => Some []
  | x :: l' =>
      match f x with
      | Some y =>
          match traverse f l' with
          | Some ys => Some (y :: ys)
          | None => None
          end
      | None => None
      end
  end.

(** [ser.write(cmd)]: pyserial refuses to write to a port that is not open. *)
Definition write (cmd : string) : M unit :=
  fun w => if is_open w then (Ok tt, set_tx w (tx w ++ [cmd]))
           else (Raised SerialException, w).

(** [str(ser.readline(), 'utf-8')]: the next line, or the empty string when
    the instrument stays silent until the timeout. *)
Definition readline : M string :=
  fun w => if is_open w then (Ok (hd EmptyString (rx w)), set_rx w (tl (rx w)))
           else (Raised SerialException, w).

Definition print (line : row) : M unit :=
  fun w => (Ok tt, set_stdout w (stdout w ++ [line])).

Definition plt (c : plot_call) : M unit :=
  fun w => (Ok tt, set_plots w (plots w ++ [c])).

Definition ser_open (b : open_behaviour) : M unit :=
  fun w => match b with
           | Opens => (Ok tt, set_is_open w true)
           | StaysClosed => (Ok tt, w)
           | OpenRaises => (Raised SerialException, w)
           end.

Definition ser_is_open : M bool := fun w => (Ok (is_open w), w).

Definition ser_close : M unit :=
  fun w => (Ok tt, set_close_calls (set_is_open w false) (S (close_calls w))).

(** [with open(filename, 'w') as csvfile: ...] with all its rows. *)
Definition write_csv (dir name : string) (rows : list row) : M unit :=
  fun w => (Ok tt, set_files w (files w ++
              [{| file_dir := dir; file_name := name; file_rows := rows |}])).

(** ** The script *)

(** Command-line arguments, as [argparse] returns them. *)
Record args : Type := {
  COMport : string;
  channels : option string;   (* [None] when [-c] is not given *)
  smooth : bool;
  save_path : option string   (* [None] when [-d] is not given *)
}.

(** What the script asks of the machine it runs on.  [savgol_filter] is
    SciPy's filter, [None] when it raises [ValueError]. *)
Record machine : Type := {
  comports : list string;     (* [port[0]] of every listed port *)
  open_result : open_behaviour;
  clock : string;             (* [str(datetime.now()).split('.')[0]] *)
  savgol_filter : list float64 -> Z -> Z -> option (list float64)
}.

Definition smooth_window : Z := 11.
Definition smooth_order : Z := 2.

Definition expected_IDN : string :=
  "TEKTRONIX,TDS 3034,0,CF:91.1CT FV:v3.29 TDS3GM:v1.00 TDS3FFT:v1.00 TDS3TRG:v1.00".

(** [range(a, b)] *)
Definition range (a b : Z) : list Z :=
  map (fun k => a + Z.of_nat k) (seq 0 (Z.to_nat (b - a))).

(** Lines 36-43: the channels to acquire. *)
Definition ACQ_CH (channels : option string) : list Z :=
  let channels := match channels with None => "12" | Some c => c end in
  filter (fun i => find channels (str i) >=? 0) (range 1 5).

(** [zip] of two and of three lists. *)
Fixpoint zip2 {A B : Type} (l1 : list A) (l2 : list B) : list (A * B) :=
  match l1, l2 with
  | a :: t1, b :: t2 => (a, b) :: zip2 t1 t2
  | _, _ => []
  end.

Fixpoint zip3 {A B C : Type} (l1 : list A) (l2 : list B) (l3 : list C)
  : list (A * B * C) :=
  match l1, l2, l3 with
  | a :: t1, b :: t2, c :: t3 => (a, b, c) :: zip3 t1 t2 t3
  | _, _, _ => []
  end.

(** Line 132: the samples scaled by the multiplier. *)
Definition decode_Y (YMULTiplier : float64) (curve : string) : option (list float64) :=
  traverse (fun d => option_map (fun v => (v * YMULTiplier)%float) (float d))
           (split ","%char curve).

(** Line 133: the time axis. *)
Definition decode_X (XINCRement XZERO : float64) (n : nat) : list float64 :=
  map (fun x => round (F64.of_Z x * XINCRement + XZERO)%float 15)
      (range 0 (Z.of_nat n)).

(** Line 145: the offset is removed and the result rounded by NumPy. *)
Definition remove_offset (YOFF : float64) (ch_data_Y : list float64) : list float64 :=
  map (fun y => np_round (y - YOFF)%float 15) ch_data_Y.

(** Lines 148-158: the rows of the channel's file. *)
Definition csv_rows (smoothing : bool) (ch_conf : list string) (XUNIT YUNIT : string)
    (ch_data_X ch_data_Y ch_data_Y_smooth : list float64) : list row :=
  [CList ch_conf] ::
  if smoothing then
    [CStr ("Time, " ++ XUNIT); CStr ("Voltage, " ++ YUNIT);
     CStr ("Smoothed Voltage, " ++ YUNIT)] ::
    map (fun '(x, y, y_s) => [CNum x; CNum y; CNum y_s])
        (zip3 ch_data_X ch_data_Y ch_data_Y_smooth)
  else
    [CStr ("Time, " ++ XUNIT); CStr ("Voltage, " ++ YUNIT)] ::
    map (fun '(x, y) => [CNum x; CNum y]) (zip2 ch_data_X ch_data_Y).

(** Lines 107-158: the body of the channel loop. *)
Definition acquire (smoothing : bool) (save_path now : string) (m : machine)
    (CH_number : Z) : M unit :=
  (* Choosing the data source *)
  write ("DATa:SOU CH" ++ str CH_number ++ LF) ;;
  write ("DATa:SOU?" ++ LF) ;;
  l <- readline ;;
  let dat_sou := drop_last l in
  print [CStr "Data source: "; CStr dat_sou] ;;
  (* Choosing the output filename *)
  let filename := replace ":"%char "-"%char (now ++ " " ++ dat_sou ++ ".csv") in
  (* Reading active channel configuration *)
  write ("WFMPre?" ++ LF) ;;
  l <- readline ;;
  let ch_conf := split ";"%char (drop_last l) in
  WFID <- orraise IndexError (item ch_conf 6) ;;
  print [CStr "WFID = "; CStr WFID] ;;
  XUNIT <- orraise IndexError (item ch_conf 11) ;;
  print [CStr "XUNIT = "; CStr XUNIT] ;;
  f8 <- orraise IndexError (item ch_conf 8) ;;
  XINCRement <- orraise ValueError (float f8) ;;
  print [CStr "XINCRement = "; CNum XINCRement] ;;
  f10 <- orraise IndexError (item ch_conf 10) ;;
  XZERO <- orraise ValueError (float f10) ;;
  print [CStr "XZERO = "; CNum XZERO] ;;
  YUNIT <- orraise IndexError (item ch_conf 15) ;;
  print [CStr "YUNIT = "; CStr YUNIT] ;;
  f12 <- orraise IndexError (item ch_conf 12) ;;
  YMULTiplier <- orraise ValueError (float f12) ;;
  print [CStr "YMULTiplier = "; CNum YMULTiplier; CStr YUNIT] ;;
  f13 <- orraise IndexError (item ch_conf 13) ;;
  YZERO <- orraise ValueError (float f13) ;;
  print [CStr "YZERO (Offset) = "; CNum YZERO; CStr YUNIT] ;;
  f14 <- orraise IndexError (item ch_conf 14) ;;
  p14 <- orraise ValueError (float f14) ;;
  let YOFF := (p14 * YMULTiplier)%float in
  print [CStr "YOFF (Position) = "; CNum YOFF; CStr YUNIT] ;;
  (* Data acquisition *)
  write ("CURVe?" ++ LF) ;;
  l <- readline ;;
  ch_data_Y <- orraise ValueError (decode_Y YMULTiplier (drop_last l)) ;;
  let ch_data_X := decode_X XINCRement XZERO (List.length ch_data_Y) in
  (* Smoothing; without it [ch_data_Y_smooth] stays unassigned and is not read *)
  ch_data_Y_smooth <-
    (if smoothing then
       y_s <- orraise ValueError
                (savgol_filter m ch_data_Y smooth_window smooth_order) ;;
       plt (Scatter ch_data_X ch_data_Y) ;;
       plt (Plot ch_data_X y_s) ;;
       ret y_s
     else
       plt (Plot ch_data_X ch_data_Y) ;;
       ret []) ;;
  (* Removing offset from the data *)
  let ch_data_Y := remove_offset YOFF ch_data_Y in
  (* Writing data to the file *)
  write_csv save_path filename
    (csv_rows smoothing ch_conf XUNIT YUNIT ch_data_X ch_data_Y ch_data_Y_smooth).

(** Lines 81-101: data format and acquisition limits. *)
Definition configure : M unit :=
  write ("WFMPre:BIT_Nr 16" ++ LF) ;;
  write ("WFMPre:BIT_Nr?" ++ LF) ;;
  l <- readline ;;
  print [CStr "Number of bits per point: "; CStr (drop_last l)] ;;
  write ("DATa:WIDth?" ++ LF) ;;
  l <- readline ;;
  print [CStr "Data width in bytes: "; CStr (drop_last l)] ;;
  write ("WFMPre:ENCdg ASC" ++ LF) ;;
  write ("WFMPre:ENCdg?" ++ LF) ;;
  l <- readline ;;
  print [CStr "Data encoding: "; CStr (drop_last l)] ;;
  write ("HORizontal?" ++ LF) ;;
  l <- readline ;;
  print [CStr "HORizontal settings: "; CStr (drop_last l)] ;;
  write ("DATa:STARt 1" ++ LF) ;;
  write ("DATa:STARt?" ++ LF) ;;
  l <- readline ;;
  print [CStr "Data start: "; CStr (drop_last l)] ;;
  write ("DATa:STOP 10000" ++ LF) ;;
  write ("DATa:STOP?" ++ LF) ;;
  l <- readline ;;
  print [CStr "Data stop: "; CStr (drop_last l)].

(** Lines 52-76: port check, opening, identification. *)
Definition connect (a : args) (m : machine) : M unit :=
  let port_exists := existsb (fun port => String.eqb port (COMport a)) (comports m) in
  when (negb port_exists)
    (print [CStr "Selected port doesn't exist!"] ;;
     print [CStr "Choose from existing:"] ;;
     print [CList (comports m)] ;;
     sys_exit) ;;
  ser_open (open_result m) ;;
  opened <- ser_is_open ;;
  when (negb opened)
    (print [CStr "Cannot open "; CStr (COMport a); CStr " serial port. Exiting..."] ;;
     sys_exit) ;;
  write ("*CLS" ++ LF) ;;
  write ("*IDN?" ++ LF) ;;
  l <- readline ;;
  let IDN := drop_last l in
  print [CStr "Identification: "; CStr IDN] ;;
  when (negb (String.eqb IDN expected_IDN))
    (print [CStr "Device connected to "; CStr (COMport a);
            CStr (" is not the " ++ expected_IDN ++ ".")] ;;
     sys_exit).

(** The whole script. *)
Definition main (a : args) (m : machine) : M unit :=
  let smoothing := smooth a in
  let save_path := match save_path a with None => "." | Some d => d end in
  let ACQ_CH := ACQ_CH (channels a) in
  connect a m ;;
  let now := clock m in
  print [CStr now] ;;
  configure ;;
  plt Figure ;;
  plt (Suptitle "Acquired data") ;;
  for_each ACQ_CH (acquire smoothing save_path now m) ;;
  plt Show ;;
  ser_close.

(** Running the script against an instrument that will answer [device]. *)
Definition run (a : args) (m : machine) (device : list string) : result unit * world :=
  main a m (initial device).

(** ** Vocabulary of the statements *)

(** A numeric preamble field: [float(ch_conf[i])]. *)
Definition number (ch_conf : list string) (i : nat) : option float64 :=
  match item ch_conf i with
  | Some f => float f
  | None => None
  end.

(** The preamble cannot be read: a field the script indexes is missing, or
    one of the five fields it converts is not a number. *)
Definition malformed (ch_conf : list string) : Prop :=
  (List.length ch_conf < 16)%nat \/
  number ch_conf 8 = None \/ number ch_conf 10 = None \/
  number ch_conf 12 = None \/ number ch_conf 13 = None \/
  number ch_conf 14 = None.

(** The file [acquire] writes when the instrument answers [lines] and the
    preamble and curve decode to the given values. *)
Definition channel_file (smoothing : bool) (save_path now : string)
    (lines : list string) (XINCRement XZERO YMULTiplier position : float64)
    (XUNIT YUNIT : string) (raw smoothed : list float64) : csv_file :=
  {| file_dir := save_path;
     file_name := replace ":"%char "-"%char
                    (now ++ " " ++ drop_last (hd "" lines) ++ ".csv");
     file_rows :=
       csv_rows smoothing (split ";"%char (drop_last (hd "" (tl lines))))
         XUNIT YUNIT (decode_X XINCRement XZERO (List.length raw))
         (remove_offset (position * YMULTiplier)%float raw) smoothed |}.

(** The sample rows of a file: everything below the two header rows. *)
Definition data_rows (f : csv_file) : list row := skipn 2 (file_rows f).

(** The [k]-th cell of every row. *)
Definition column (k : nat) (rows : list row) : list (option cell) :=
  map (fun r => nth_error r k) rows.

Definition num (x : float64) : option cell := Some (CNum x).

(** SciPy's filter returns an array of the shape of its input. *)
Definition keeps_length (m : machine) : Prop :=
  forall x w o y, savgol_filter m x w o = Some y -> List.length y = List.length x.

(** The four commands of one channel. *)
Definition channel_commands (CH_number : Z) : list string :=
  ["DATa:SOU CH" ++ str CH_number ++ LF; "DATa:SOU?" ++ LF;
   "WFMPre?" ++ LF; "CURVe?" ++ LF].

(** The two identification commands and the ten configuration commands. *)
Definition identification_commands : list string :=
  ["*CLS" ++ LF; "*IDN?" ++ LF].

Definition configuration_commands : list string :=
  ["WFMPre:BIT_Nr 16" ++ LF; "WFMPre:BIT_Nr?" ++ LF; "DATa:WIDth?" ++ LF;
   "WFMPre:ENCdg ASC" ++ LF; "WFMPre:ENCdg?" ++ LF; "HORizontal?" ++ LF;
   "DATa:STARt 1" ++ LF; "DATa:STARt?" ++ LF;
   "DATa:STOP 10000" ++ LF; "DATa:STOP?" ++ LF].

Definition mismatch_message (a : args) : row :=
  [CStr "Device connected to "; CStr (COMport a);
   CStr (" is not the " ++ expected_IDN ++ ".")].

(** ** A bench for examples *)

(** A stand-in for SciPy's filter: it raises where SciPy's argument checks
    raise ([polyorder >= window_length], or more window than samples) and
    hands the series back otherwise.  The smoothed values themselves are
    SciPy's business; every general statement below holds for any filter. *)
Definition savgol_checks_only (x : list float64) (window_length polyorder : Z)
  : option (list float64) :=
  if (polyorder >=? window_length) || (window_length >? Z.of_nat (List.length x))
  then None else Some x.

Definition bench : machine :=
  {| comports := ["COM1"; "COM3"];
     open_result := Opens;
     clock := "2024-01-02 03:04:05";
     savgol_filter := savgol_checks_only |}.

Definition answers (lines : list string) : list string :=
  map (fun l => l ++ LF) lines.

(** The instrument's answers to identification and configuration. *)
Definition setup_answers : list string :=
  [expected_IDN; "16"; "2"; "ASC"; "MAIN;4.0E-4;10000"; "1"; "10000"].

(** A preamble with [x_increment = 1e-6], [x_zero = 0],
    [y_multiplier = 0.04] and raw position [512]. *)
Definition scenario_preamble : string :=
  "2;16;ASC;RP;MSB;3;Ch1, DC coupling, 3 points;Y;1e-6;0;0;s;0.04;0;512;V".

Definition only_channel_1 (smoothing : bool) : args :=
  {| COMport := "COM3"; channels := Some "1"; smooth := smoothing;
     save_path := None |}.

Definition all_channels : args :=
  {| COMport := "COM3"; channels := Some "1234"; smooth := false;
     save_path := Some "data" |}.

(** The world at the top of the channel loop: the port open, [lines] still
    to come from the instrument. *)
Definition at_loop (lines : list string) : world :=
  {| rx := lines; tx := []; is_open := true; close_calls := O;
     stdout := []; files := []; plots := [] |}.

(** The answers of one channel: source echo, preamble, curve. *)
Definition channel_answers (source preamble curve : string) : list string :=
  answers [source; preamble; curve].

(** An identification that differs from the expected one in one character
    (a TDS 3054 instead of a TDS 3034). *)
Definition other_IDN : string :=
  "TEKTRONIX,TDS 3054,0,CF:91.1CT FV:v3.29 TDS3GM:v1.00 TDS3FFT:v1.00 TDS3TRG:v1.00".

(** The column of a file written by a run, for every file. *)
Definition columns_written (k : nat) (out : result unit * world)
  : list (list (option cell)) :=
  map (fun f => column k (data_rows f)) (files (snd out)).

(** The ASCII digit of a channel number. *)
Definition digit_char (i : Z) : ascii := ascii_of_nat (48 + Z.to_nat i).

Definition occurs (c : ascii) (s : string) : bool :=
  existsb (Ascii.eqb c) (list_ascii_of_string s).

(** Four channels answering, the second one with a preamble of three
    fields. *)
Definition second_preamble_short : list string :=
  answers (setup_answers ++
           ["CH1"; scenario_preamble; "100,200,300";
            "CH2"; "2;16;ASC"; "100,200,300";
            "CH3"; scenario_preamble; "100,200,300";
            "CH4"; scenario_preamble; "100,200,300"]).

(** Eleven samples: as many as the smoothing window. *)
Definition eleven_samples : string := "100,200,300,400,500,600,700,800,900,1000,1100".

(** ** Vocabulary of the session statements *)

(** The selected port is among the listed ones (lines 53-57). *)
Definition port_listed (a : args) (m : machine) : bool :=
  existsb (fun port => String.eqb port (COMport a)) (comports m).

(** A computation that never exits and only adds to the commands sent. *)
Definition steady {A : Type} (m : M A) : Prop :=
  forall w r w', m w = (r, w') ->
    r <> SysExit /\ exists l, tx w' = (tx w ++ l)%list.

(** The world once the right instrument has answered every configuration
    query. *)
Definition configured (a : args) (m : machine) (device : list string) : world :=
  {| rx := tl (tl (tl (tl (tl (tl (tl device))))));
     tx := identification_commands ++ configuration_commands;
     is_open := true;
     close_calls := O;
     stdout :=
       [[CStr "Identification: "; CStr (drop_last (hd "" device))];
        [CStr (clock m)];
        [CStr "Number of bits per point: "; CStr (drop_last (hd "" (tl device)))];
        [CStr "Data width in bytes: "; CStr (drop_last (hd "" (tl (tl device))))];
        [CStr "Data encoding: "; CStr (drop_last (hd "" (tl (tl (tl device)))))];
        [CStr "HORizontal settings: "; CStr (drop_last (hd "" (tl (tl (tl (tl device))))))];
        [CStr "Data start: "; CStr (drop_last (hd "" (tl (tl (tl (tl (tl device)))))))];
        [CStr "Data stop: "; CStr (drop_last (hd "" (tl (tl (tl (tl (tl (tl device))))))))]];
     files := [];
     plots := [] |}.

(** ** Vocabulary of the further properties *)

(** A computation that never exits and leaves the port as it found it. *)
Definition calm {A : Type} (m : M A) : Prop :=
  forall w r w', m w = (r, w') ->
    r <> SysExit /\ is_open w' = is_open w /\ close_calls w' = close_calls w.

(** A computation that closes the port, once, exactly when it returns, and
    never exits. *)
Definition closes_on_return (m : M unit) : Prop :=
  forall w r w', m w = (r, w') ->
    match r with
    | Ok _ => is_open w' = false /\ close_calls w' = S (close_calls w)
    | SysExit => False
    | Raised _ => is_open w' = is_open w /\ close_calls w' = close_calls w
    end.

(** Lines 103-162: what follows the configuration. *)
Definition acquisition (smoothing : bool) (save_path now : string)
    (m : machine) (chs : list Z) : M unit :=
  plt Figure ;; plt (Suptitle "Acquired data") ;;
  for_each chs (acquire smoothing save_path now m) ;;
  plt Show ;; ser_close.

(** The same machine with another smoothing filter installed. *)
Definition with_filter (m : machine)
    (g : list float64 -> Z -> Z -> option (list float64)) : machine :=
  {| comports := comports m; open_result := open_result m; clock := clock m;
     savgol_filter := g |}.

(** The three messages of lines 59-61. *)
Definition unlisted_messages (m : machine) : list row :=
  [[CStr "Selected port doesn't exist!"]; [CStr "Choose from existing:"];
   [CList (comports m)]].

(** ** Unit tests of the library models *)

Example round_half_even_125 : round 0.125%float 2 = 0.12%float.
Proof. vm_compute. reflexivity. Qed.
Example round_2675 : round 2.675%float 2 = 2.67%float.
Proof. vm_compute. reflexivity. Qed.
Example np_round_8e16 : np_round 8e-16%float 15 = 1e-15%float.
Proof. vm_compute. reflexivity. Qed.
Example round_4e16 : round 4e-16%float 15 = 0%float.
Proof. vm_compute. reflexivity. Qed.
Example of_ratio_tenth : F64.of_ratio false 1 10 = 0.1%float.
Proof. vm_compute. reflexivity. Qed.
Example of_ratio_1e23 : F64.of_ratio false (10 ^ 23) 1 = 1e23%float.
Proof. vm_compute. reflexivity. Qed.
Example of_ratio_huge : F64.of_ratio false (10 ^ 400) 1 = infinity.
Proof. vm_compute. reflexivity. Qed.
Example of_ratio_tiny : F64.of_ratio false 5 (10 ^ 324) = 5e-324%float.
Proof. vm_compute. reflexivity. Qed.
Example of_ratio_under : F64.of_ratio false 2 (10 ^ 324) = 0%float.
Proof. vm_compute. reflexivity. Qed.
Example pow15 : power_of_ten 15 = 1e15%float.
Proof. vm_compute. reflexivity. Qed.
Example rint_half : F64.rint 2.5%float = 2%float /\ F64.rint 3.5%float = 4%float
  /\ F64.rint (-0.3)%float = neg_zero /\ F64.rint 1e300%float = 1e300%float.
Proof. vm_compute. repeat split; reflexivity. Qed.
Example float_100 : float "100" = Some 100%float. Proof. vm_compute. reflexivity. Qed.
Example float_004 : float "0.04" = Some 0.04%float. Proof. vm_compute. reflexivity. Qed.
Example float_1em6 : float " 1E-6 " = Some 1e-6%float. Proof. vm_compute. reflexivity. Qed.
Example float_sci : float "-4.0E-2" = Some (-0.04)%float. Proof. vm_compute. reflexivity. Qed.
Example float_dot : float ".5" = Some 0.5%float /\ float "5." = Some 5%float /\ float "." = None.
Proof. vm_compute. repeat split; reflexivity. Qed.
Example float_bad : float "" = None /\ float "V" = None /\ float "1e" = None
  /\ float "1 2" = None /\ float "1_" = None /\ float "_1" = None /\ float "0x10" = None.
Proof. vm_compute. repeat split; reflexivity. Qed.
Example float_under : float "1_000.5" = Some 1000.5%float. Proof. vm_compute. reflexivity. Qed.
Example float_inf : float "-Infinity" = Some neg_infinity /\ float "NaN" = Some nan.
Proof. vm_compute. repeat split; reflexivity. Qed.
Example float_17 : float "0.30000000000000004" = Some (0.1 + 0.2)%float.
Proof. vm_compute. reflexivity. Qed.
Example split_3 : split ","%char "100,200,300" = ["100"; "200"; "300"].
Proof. reflexivity. Qed.
Example split_empty : split ";"%char "" = [""] /\ split ";"%char "a;;b;" = ["a"; ""; "b"; ""].
Proof. split; reflexivity. Qed.
Example find_ex : find "134" "3" = 1 /\ find "134" "2" = -1 /\ find "" "1" = -1.
Proof. vm_compute. repeat split; reflexivity. Qed.
Example str_ex : str 3 = "3" /\ str 0 = "0" /\ str 12 = "12".
Proof. vm_compute. repeat split; reflexivity. Qed.
Example drop_last_ex : drop_last ("CH1" ++ LF) = "CH1" /\ drop_last "" = "".
Proof. vm_compute. repeat split; reflexivity. Qed.
Example round_ties : round 0.5e-15%float 15 = 1e-15%float
  /\ round (-1e-16)%float 15 = neg_zero /\ round 1e22%float 15 = 1e22%float
  /\ round infinity 15 = infinity.
Proof. vm_compute. repeat split; reflexivity. Qed.
Example round_456 : round (114 * 0.04)%float 15 = 4.56%float
  /\ (114 * 0.04)%float = 4.5600000000000005%float.
Proof. vm_compute. repeat split; reflexivity. Qed.
Example float_big : float "9007199254740993" = Some 9007199254740992%float
  /\ float "1e309" = Some infinity /\ float "2.4703282292062327e-324" = Some 0%float
  /\ float "-0.0" = Some neg_zero.
Proof. vm_compute. repeat split; reflexivity. Qed.
Example of_Z_big : F64.of_Z 9007199254740995 = 9007199254740996%float.
Proof. vm_compute. reflexivity. Qed.

(** ** Lists and strings *)

Section ListFacts.

Context {A B C : Type}.

Lemma traverse_length (f : A -> option B) (l : list A) (r : list B) :
  traverse f l = Some r -> List.length r = List.length l.
Proof.
  revert r. induction l as [|x l IH]; intros r H; simpl in H.
  - inversion H. reflexivity.
  - destruct (f x); [|discriminate].
    destruct (traverse f l) as [ys|]; [|discriminate].
    inversion H. simpl. f_equal. apply IH. reflexivity.
Qed.

(** A comprehension that scales what it parses is the parse, then scaled. *)
Lemma traverse_option_map (f : A -> option B) (g : B -> C) (l : list A)
    (r : list C) :
  traverse (fun x => option_map g (f x)) l = Some r ->
  exists v, traverse f l = Some v /\ r = map g v.
Proof.
  revert r. induction l as [|x l IH]; intros r H; simpl in *.
  - inversion H. exists []. split; reflexivity.
  - destruct (f x) as [y|]; simpl in H; [|discriminate].
    destruct (traverse (fun x => option_map g (f x)) l) as [ys|];
      [|discriminate].
    destruct (IH ys eq_refl) as [v [Hv Hys]].
    rewrite Hv. inversion H. exists (y :: v). subst ys.
    split; reflexivity.
Qed.

Lemma zip2_length (l1 : list A) (l2 : list B) :
  List.length (zip2 l1 l2) = Nat.min (List.length l1) (List.length l2).
Proof.
  revert l2. induction l1 as [|a l1 IH]; intros [|b l2]; simpl; auto.
Qed.

Lemma zip3_length (l1 : list A) (l2 : list B) (l3 : list C) :
  List.length (zip3 l1 l2 l3) =
  Nat.min (List.length l1) (Nat.min (List.length l2) (List.length l3)).
Proof.
  revert l2 l3.
  induction l1 as [|a l1 IH]; intros [|b l2] [|c l3]; simpl; auto.
Qed.

Lemma map_zip2_fst {D : Type} (g : A -> D) (l1 : list A) (l2 : list B) :
  List.length l1 = List.length l2 ->
  map (fun p => g (fst p)) (zip2 l1 l2) = map g l1.
Proof.
  revert l2. induction l1 as [|a l1 IH]; intros [|b l2] H; simpl in *;
    try discriminate; auto.
  f_equal. apply IH. congruence.
Qed.

Lemma map_zip2_snd {D : Type} (g : B -> D) (l1 : list A) (l2 : list B) :
  List.length l1 = List.length l2 ->
  map (fun p => g (snd p)) (zip2 l1 l2) = map g l2.
Proof.
  revert l2. induction l1 as [|a l1 IH]; intros [|b l2] H; simpl in *;
    try discriminate; auto.
  f_equal. apply IH. congruence.
Qed.

Lemma map_zip3_1 {D : Type} (g : A -> D) (l1 : list A) (l2 : list B)
    (l3 : list C) :
  List.length l1 = List.length l2 -> List.length l3 = List.length l2 ->
  map (fun p => g (fst (fst p))) (zip3 l1 l2 l3) = map g l1.
Proof.
  revert l2 l3.
  induction l1 as [|a l1 IH]; intros [|b l2] [|c l3] H1 H2; simpl in *;
    try discriminate; auto.
  f_equal. apply IH; congruence.
Qed.

Lemma map_zip3_2 {D : Type} (g : B -> D) (l1 : list A) (l2 : list B)
    (l3 : list C) :
  List.length l1 = List.length l2 -> List.length l3 = List.length l2 ->
  map (fun p => g (snd (fst p))) (zip3 l1 l2 l3) = map g l2.
Proof.
  revert l2 l3.
  induction l1 as [|a l1 IH]; intros [|b l2] [|c l3] H1 H2; simpl in *;
    try discriminate; auto.
  f_equal. apply IH; congruence.
Qed.

Lemma map_zip3_3 {D : Type} (g : C -> D) (l1 : list A) (l2 : list B)
    (l3 : list C) :
  List.length l1 = List.length l2 -> List.length l3 = List.length l2 ->
  map (fun p => g (snd p)) (zip3 l1 l2 l3) = map g l3.
Proof.
  revert l2 l3.
  induction l1 as [|a l1 IH]; intros [|b l2] [|c l3] H1 H2; simpl in *;
    try discriminate; auto.
  f_equal. apply IH; congruence.
Qed.

End ListFacts.

(** [split] returns one token more than there are separators. *)
Lemma split_length (sep : ascii) (s : string) :
  List.length (split sep s) = S (count_char sep s).
Proof.
  induction s as [|c r IH]; simpl; [reflexivity|].
  destruct (Ascii.eqb c sep); simpl.
  - rewrite IH. reflexivity.
  - destruct (split sep r) as [|h t]; simpl in *; [discriminate|exact IH].
Qed.

Lemma range_length (a b : Z) : List.length (range a b) = Z.to_nat (b - a).
Proof. unfold range. rewrite length_map, length_seq. reflexivity. Qed.

Lemma range_0_nth (n i : nat) :
  (i < n)%nat -> nth_error (range 0 (Z.of_nat n)) i = Some (Z.of_nat i).
Proof.
  intros H. unfold range.
  rewrite nth_error_map.
  replace (Z.to_nat (Z.of_nat n - 0)) with n by lia.
  assert (Hs : nth_error (seq 0 n) i = Some i).
  { rewrite (nth_error_nth' _ O) by (rewrite length_seq; exact H).
    rewrite seq_nth by exact H. reflexivity. }
  rewrite Hs. reflexivity.
Qed.

Lemma decode_X_length (XINCRement XZERO : float64) (n : nat) :
  List.length (decode_X XINCRement XZERO n) = n.
Proof. unfold decode_X. rewrite length_map, range_length. lia. Qed.

Lemma decode_X_nth (XINCRement XZERO : float64) (n i : nat) :
  (i < n)%nat ->
  nth_error (decode_X XINCRement XZERO n) i =
  Some (round (F64.of_Z (Z.of_nat i) * XINCRement + XZERO)%float 15).
Proof.
  intros H. unfold decode_X. rewrite nth_error_map, range_0_nth by exact H.
  reflexivity.
Qed.

Lemma remove_offset_length (YOFF : float64) (l : list float64) :
  List.length (remove_offset YOFF l) = List.length l.
Proof. apply length_map. Qed.

(** The samples of a decoded curve are its tokens, parsed and scaled. *)
Lemma decode_Y_samples (YMULTiplier : float64) (curve : string)
    (raw : list float64) :
  decode_Y YMULTiplier curve = Some raw ->
  exists samples,
    traverse float (split ","%char curve) = Some samples /\
    raw = map (fun v => (v * YMULTiplier)%float) samples.
Proof. apply traverse_option_map. Qed.

Lemma decode_Y_length (YMULTiplier : float64) (curve : string)
    (raw : list float64) :
  decode_Y YMULTiplier curve = Some raw ->
  List.length raw = S (count_char ","%char curve).
Proof.
  intros H. apply traverse_length in H. rewrite H. apply split_length.
Qed.

(** ** The rows of a channel file *)

Lemma csv_rows_count (smoothing : bool) (ch_conf : list string)
    (XUNIT YUNIT : string) (X Y S : list float64) :
  List.length (skipn 2 (csv_rows smoothing ch_conf XUNIT YUNIT X Y S)) =
  if smoothing
  then Nat.min (List.length X) (Nat.min (List.length Y) (List.length S))
  else Nat.min (List.length X) (List.length Y).
Proof.
  unfold csv_rows. destruct smoothing; simpl; rewrite length_map.
  - apply zip3_length.
  - apply zip2_length.
Qed.

Lemma csv_rows_columns (smoothing : bool) (ch_conf : list string)
    (XUNIT YUNIT : string) (X Y S : list float64) :
  List.length X = List.length Y ->
  (smoothing = true -> List.length S = List.length Y) ->
  let rows := skipn 2 (csv_rows smoothing ch_conf XUNIT YUNIT X Y S) in
  column 0 rows = map num X /\
  column 1 rows = map num Y /\
  (smoothing = true -> column 2 rows = map num S).
Proof.
  intros HX HS. unfold csv_rows, column.
  destruct smoothing; cbn [skipn]; rewrite !map_map.
  - specialize (HS eq_refl). repeat split.
    + rewrite <- (map_zip3_1 num X Y S HX HS).
      apply map_ext. intros [[x y] s]. reflexivity.
    + rewrite <- (map_zip3_2 num X Y S HX HS).
      apply map_ext. intros [[x y] s]. reflexivity.
    + intros _. rewrite <- (map_zip3_3 num X Y S HX HS).
      apply map_ext. intros [[x y] s]. reflexivity.
  - repeat split.
    + rewrite <- (map_zip2_fst num X Y HX).
      apply map_ext. intros [x y]. reflexivity.
    + rewrite <- (map_zip2_snd num X Y HX).
      apply map_ext. intros [x y]. reflexivity.
    + discriminate.
Qed.

(** ** Stepping through the script *)

Lemma bind_write (A : Type) (c : string) (k : unit -> M A) (w : world) :
  is_open w = true -> bind (write c) k w = k tt (set_tx w (tx w ++ [c])).
Proof. intros H. unfold bind, write. rewrite H. reflexivity. Qed.

Lemma bind_readline (A : Type) (k : string -> M A) (w : world) :
  is_open w = true ->
  bind readline k w = k (hd EmptyString (rx w)) (set_rx w (tl (rx w))).
Proof. intros H. unfold bind, readline. rewrite H. reflexivity. Qed.

Lemma bind_print (A : Type) (r : row) (k : unit -> M A) (w : world) :
  bind (print r) k w = k tt (set_stdout w (stdout w ++ [r])).
Proof. reflexivity. Qed.

Lemma bind_plt (A : Type) (c : plot_call) (k : unit -> M A) (w : world) :
  bind (plt c) k w = k tt (set_plots w (plots w ++ [c])).
Proof. reflexivity. Qed.

Lemma bind_orraise (A B : Type) (e : exn) (o : option A) (k : A -> M B)
    (w : world) :
  bind (orraise e o) k w =
  match o with Some a => k a w | None => (Raised e, w) end.
Proof. destruct o; reflexivity. Qed.

Lemma bind_bind (A B C : Type) (m : M A) (k : A -> M B) (h : B -> M C)
    (w : world) :
  bind (bind m k) h w = bind m (fun a => bind (k a) h) w.
Proof. unfold bind. destruct (m w) as [[a| |e] w1]; reflexivity. Qed.

Ltac world_simpl :=
  unfold set_rx, set_tx, set_is_open, set_close_calls, set_stdout, set_files,
    set_plots;
  cbn [rx tx is_open close_calls stdout files plots].

Ltac world_simpl_in H :=
  unfold set_rx, set_tx, set_is_open, set_close_calls, set_stdout, set_files,
    set_plots in H;
  cbn [rx tx is_open close_calls stdout files plots] in H.

Ltac step :=
  first [ rewrite bind_write by reflexivity
        | rewrite bind_readline by reflexivity
        | rewrite bind_print
        | rewrite bind_plt
        | rewrite bind_orraise ]; world_simpl.

Ltac step_in H :=
  first [ rewrite bind_write in H by reflexivity
        | rewrite bind_readline in H by reflexivity
        | rewrite bind_print in H
        | rewrite bind_plt in H
        | rewrite bind_orraise in H ]; world_simpl_in H.

(** Splits on the next operation that may raise, keeping the case where it
    returns. *)
Ltac returns_in H :=
  match type of H with
  | match ?o with Some _ => _ | None => _ end = _ =>
      let E := fresh "E" in
      destruct o eqn:E; [| discriminate H]; repeat step_in H
  end.

(** ** The channel loop body *)

Lemma acquire_closed (smoothing : bool) (sp now : string) (m : machine)
    (ch : Z) (w : world) :
  is_open w = false ->
  acquire smoothing sp now m ch w = (Raised SerialException, w).
Proof. intros H. unfold acquire, bind, write. rewrite H. reflexivity. Qed.

(** What a channel that went through has read, plotted and written. *)
Lemma acquire_Ok (smoothing : bool) (sp now : string) (m : machine) (ch : Z)
    (w w' : world) :
  acquire smoothing sp now m ch w = (Ok tt, w') ->
  let ch_conf := split ";"%char (drop_last (hd "" (tl (rx w)))) in
  let curve := drop_last (hd "" (tl (tl (rx w)))) in
  exists WFID XUNIT YUNIT XINC XZERO YM YZERO pos raw smoothed,
    item ch_conf 6 = Some WFID /\ item ch_conf 11 = Some XUNIT /\
    item ch_conf 15 = Some YUNIT /\
    number ch_conf 8 = Some XINC /\ number ch_conf 10 = Some XZERO /\
    number ch_conf 12 = Some YM /\ number ch_conf 13 = Some YZERO /\
    number ch_conf 14 = Some pos /\
    decode_Y YM curve = Some raw /\
    (if smoothing
     then savgol_filter m raw smooth_window smooth_order = Some smoothed
     else smoothed = []) /\
    files w' =
      (files w ++ [channel_file smoothing sp now (rx w) XINC XZERO YM pos
                     XUNIT YUNIT raw smoothed])%list /\
    plots w' =
      (plots w ++
       (let X := decode_X XINC XZERO (List.length raw) in
        if smoothing then [Scatter X raw; Plot X smoothed] else [Plot X raw]))%list /\
    tx w' = (tx w ++ channel_commands ch)%list.
Proof.
  intros H.
  destruct (is_open w) eqn:Ho;
    [| rewrite acquire_closed in H by exact Ho; discriminate].
  destruct w as [rx0 tx0 io cc so fi pl]. simpl in Ho. subst io.
  cbn [rx tx files plots].
  unfold acquire, number in *.
  repeat step_in H.
  repeat returns_in H.
  match type of H with
  | _ _ = _ =>
      match goal with
      | E6 : item _ 6 = Some ?a, E11 : item _ 11 = Some ?b,
        E15 : item _ 15 = Some ?c, D : decode_Y ?y _ = Some ?raw |- _ =>
          exists a, b, c
      end
  end.
  do 5 eexists. exists l.
  destruct smoothing.
  - rewrite bind_bind in H. step_in H.
    destruct (savgol_filter m l smooth_window smooth_order) as [y_s|] eqn:Es;
      [| discriminate H].
    exists y_s.
    unfold bind, plt, ret, write_csv in H. world_simpl_in H.
    inversion H; subst w'; clear H. cbn [files plots tx].
    unfold channel_file, channel_commands. cbn [hd tl].
    rewrite <- !app_assoc. repeat split; first [reflexivity | assumption].
  - exists [].
    unfold bind, plt, ret, write_csv in H. world_simpl_in H.
    inversion H; subst w'; clear H. cbn [files plots tx].
    unfold channel_file, channel_commands. cbn [hd tl].
    rewrite <- !app_assoc. repeat split; first [reflexivity | assumption].
Qed.

Ltac fields_disagree :=
  exfalso; unfold number in *;
  repeat match goal with
         | E : ?o = _, Hn : context [match ?o with Some _ => _ | None => _ end] |- _ =>
             rewrite E in Hn
         end;
  congruence.

(** A preamble the script cannot read stops the channel after its third
    command: nothing is plotted or written, and the exception escapes. *)
Lemma acquire_malformed (smoothing : bool) (sp now : string) (m : machine)
    (ch : Z) (w : world) :
  is_open w = true ->
  malformed (split ";"%char (drop_last (hd "" (tl (rx w))))) ->
  exists e w',
    acquire smoothing sp now m ch w = (Raised e, w') /\
    (e = IndexError \/ e = ValueError) /\
    files w' = files w /\ plots w' = plots w /\
    tx w' = (tx w ++ firstn 3 (channel_commands ch))%list /\
    is_open w' = true /\ close_calls w' = close_calls w.
Proof.
  intros Ho Hbad.
  destruct (acquire smoothing sp now m ch w) as [res w'] eqn:H.
  destruct w as [rx0 tx0 io cc so fi pl]. simpl in Ho. subst io.
  cbn [rx tx files plots is_open close_calls] in *.
  unfold acquire in H. repeat step_in H.
  do 13 (match type of H with
         | match ?o with Some _ => _ | None => _ end = _ =>
             let E := fresh "E" in
             destruct o eqn:E;
             [ repeat step_in H
             | inversion H; subst res w'; clear H;
               do 2 eexists; split; [reflexivity|];
               cbn [rx tx files plots is_open close_calls firstn channel_commands];
               rewrite <- !app_assoc; repeat split; auto ]
         end).
  exfalso. destruct Hbad as [Hlen | Hnum].
  - match goal with
    | E15 : item _ 15 = Some _ |- _ =>
        assert (Hsome : item (split ";"%char (drop_last (hd "" (tl rx0)))) 15 <> None)
          by (rewrite E15; discriminate)
    end.
    unfold item in Hsome. apply nth_error_Some in Hsome. lia.
  - unfold number in Hnum.
    repeat match goal with
           | E : ?o = Some _, Hn : context [match ?o with Some _ => _ | None => _ end] |- _ =>
               rewrite E in Hn
           end.
    intuition congruence.
Qed.

(** A filter that rejects the series stops the channel after its curve has
    been read: the exception escapes and no file is written. *)
Lemma acquire_filter_rejects (sp now : string) (m : machine) (ch : Z)
    (w : world) (WFID XUNIT YUNIT : string) (XINC XZERO YM YZERO pos : float64)
    (raw : list float64) :
  let ch_conf := split ";"%char (drop_last (hd "" (tl (rx w)))) in
  let curve := drop_last (hd "" (tl (tl (rx w)))) in
  is_open w = true ->
  item ch_conf 6 = Some WFID -> item ch_conf 11 = Some XUNIT ->
  item ch_conf 15 = Some YUNIT ->
  number ch_conf 8 = Some XINC -> number ch_conf 10 = Some XZERO ->
  number ch_conf 12 = Some YM -> number ch_conf 13 = Some YZERO ->
  number ch_conf 14 = Some pos ->
  decode_Y YM curve = Some raw ->
  savgol_filter m raw smooth_window smooth_order = None ->
  exists w',
    acquire true sp now m ch w = (Raised ValueError, w') /\
    tx w' = (tx w ++ channel_commands ch)%list /\
    files w' = files w /\ plots w' = plots w /\
    is_open w' = true /\ close_calls w' = close_calls w.
Proof.
  intros ch_conf curve Ho H6 H11 H15 H8 H10 H12 H13 H14 HY HS.
  subst ch_conf curve.
  destruct (acquire true sp now m ch w) as [res w'] eqn:H.
  destruct w as [rx0 tx0 io cc so fi pl]. simpl in Ho. subst io.
  cbn [rx tx files plots is_open close_calls] in *.
  unfold acquire in H. repeat step_in H.
  do 13 (match type of H with
         | match ?o with Some _ => _ | None => _ end = _ =>
             let E := fresh "E" in
             destruct o eqn:E; [ repeat step_in H | fields_disagree ]
         end).
  match type of H with
  | context [decode_Y ?y _] =>
      assert (Hy : y = YM)
        by (unfold number in *;
            repeat match goal with
                   | E : ?o = Some _,
                     Hn : context [match ?o with Some _ => _ | None => _ end] |- _ =>
                       rewrite E in Hn
                   end;
            congruence);
      rewrite Hy in H
  end.
  rewrite HY in H. rewrite bind_bind in H. step_in H. rewrite HS in H.
  inversion H; subst res w'; clear H.
  eexists; split; [reflexivity|].
  cbn [rx tx files plots is_open close_calls channel_commands].
  rewrite <- !app_assoc. repeat split; reflexivity.
Qed.

(** ** The loop *)

Lemma bind_ret (A B : Type) (a : A) (k : A -> M B) (w : world) :
  bind (ret a) k w = k a w.
Proof. reflexivity. Qed.

Lemma for_each_app (A : Type) (l1 l2 : list A) (body : A -> M unit)
    (w : world) :
  for_each (l1 ++ l2) body w =
  bind (for_each l1 body) (fun _ => for_each l2 body) w.
Proof.
  revert w. induction l1 as [|x l1 IH]; intros w; simpl.
  - reflexivity.
  - rewrite bind_bind.
    change (match body x w with
            | (Ok _, w1) => for_each (l1 ++ l2) body w1
            | (SysExit, w1) => (SysExit, w1)
            | (Raised e, w1) => (Raised e, w1)
            end =
            match body x w with
            | (Ok _, w1) => bind (for_each l1 body) (fun _ => for_each l2 body) w1
            | (SysExit, w1) => (SysExit, w1)
            | (Raised e, w1) => (Raised e, w1)
            end).
    destruct (body x w) as [[[]| |e] w1]; [apply IH | reflexivity | reflexivity].
Qed.

(** ** Commands are only ever added, and only [connect] exits *)


Lemma steady_bind (A B : Type) (m : M A) (k : A -> M B) :
  steady m -> (forall a, steady (k a)) -> steady (bind m k).
Proof.
  intros Hm Hk w r w' H. unfold bind in H.
  destruct (m w) as [[a| |e] w1] eqn:E; destruct (Hm _ _ _ E) as [Hne [l Hl]].
  - destruct (Hk a _ _ _ H) as [Hr [l' Hl']]. split; [exact Hr|].
    exists (l ++ l')%list. rewrite Hl', Hl, app_assoc. reflexivity.
  - congruence.
  - inversion H; subst. split; [discriminate|]. exists l. exact Hl.
Qed.

Lemma steady_same_tx (A : Type) (m : M A) :
  (forall w r w', m w = (r, w') -> r <> SysExit /\ tx w' = tx w) -> steady m.
Proof.
  intros Hm w r w' H. destruct (Hm _ _ _ H) as [Hr Ht]. split; [exact Hr|].
  exists []. rewrite app_nil_r. exact Ht.
Qed.

Lemma steady_ret (A : Type) (a : A) : steady (ret a).
Proof.
  apply steady_same_tx. intros w r w' H. inversion H. split; [discriminate|reflexivity].
Qed.

Lemma steady_orraise (A : Type) (e : exn) (o : option A) : steady (orraise e o).
Proof.
  apply steady_same_tx. intros w r w' H.
  destruct o; inversion H; split; (discriminate || reflexivity).
Qed.

Lemma steady_print (r : row) : steady (print r).
Proof.
  apply steady_same_tx. intros w r' w' H. inversion H.
  split; [discriminate|reflexivity].
Qed.

Lemma steady_plt (c : plot_call) : steady (plt c).
Proof.
  apply steady_same_tx. intros w r' w' H. inversion H.
  split; [discriminate|reflexivity].
Qed.

Lemma steady_write_csv (d n : string) (rows : list row) :
  steady (write_csv d n rows).
Proof.
  apply steady_same_tx. intros w r' w' H. inversion H.
  split; [discriminate|reflexivity].
Qed.

Lemma steady_ser_close : steady ser_close.
Proof.
  apply steady_same_tx. intros w r' w' H. inversion H.
  split; [discriminate|reflexivity].
Qed.

Lemma steady_readline : steady readline.
Proof.
  apply steady_same_tx. intros w r' w' H. unfold readline in H.
  destruct (is_open w); inversion H; split; (discriminate || reflexivity).
Qed.

Lemma steady_write (c : string) : steady (write c).
Proof.
  intros w r w' H. unfold write in H.
  destruct (is_open w); inversion H; subst; (split; [discriminate|]).
  - exists [c]. reflexivity.
  - exists []. rewrite app_nil_r. reflexivity.
Qed.

Lemma steady_for_each (A : Type) (l : list A) (body : A -> M unit) :
  (forall x, steady (body x)) -> steady (for_each l body).
Proof.
  intros Hb. induction l as [|x l IH]; simpl.
  - apply steady_ret.
  - apply steady_bind; [apply Hb | intros _; exact IH].
Qed.

Create HintDb steady.

#[local] Hint Resolve steady_ret steady_orraise steady_print steady_plt
  steady_write_csv steady_ser_close steady_readline steady_write : steady.

Ltac steady_chain :=
  repeat first
    [ apply steady_bind; [| intro]
    | match goal with |- steady (if ?b then _ else _) => destruct b end
    | solve [auto with steady] ].

Lemma steady_acquire (smoothing : bool) (sp now : string) (m : machine)
    (ch : Z) :
  steady (acquire smoothing sp now m ch).
Proof. unfold acquire. steady_chain. Qed.

(** What runs once the instrument is identified and configured. *)
Lemma steady_acquisition (smoothing : bool) (sp now : string) (m : machine)
    (chs : list Z) :
  steady (plt Figure ;; plt (Suptitle "Acquired data") ;;
          for_each chs (acquire smoothing sp now m) ;; plt Show ;; ser_close).
Proof.
  steady_chain.
  apply steady_for_each. intro. apply steady_acquire.
Qed.

(** ** Connecting and configuring *)



Lemma bind_ser_open (A : Type) (k : unit -> M A) (w : world) :
  bind (ser_open Opens) k w = k tt (set_is_open w true).
Proof. reflexivity. Qed.

Lemma bind_ser_is_open (A : Type) (k : bool -> M A) (w : world) :
  bind ser_is_open k w = k (is_open w) w.
Proof. reflexivity. Qed.

Ltac connect_steps :=
  repeat first
    [ rewrite bind_bind
    | rewrite bind_ret
    | step ].

(** With the port listed, opened and the expected identification read, the
    script reaches the channel loop with all twelve commands sent. *)
Lemma main_identified (a : args) (m : machine) (device : list string) :
  port_listed a m = true ->
  open_result m = Opens ->
  drop_last (hd "" device) = expected_IDN ->
  run a m device =
  (plt Figure ;; plt (Suptitle "Acquired data") ;;
   for_each (ACQ_CH (channels a))
     (acquire (smooth a) (match save_path a with None => "." | Some d => d end)
        (clock m) m) ;;
   plt Show ;; ser_close) (configured a m device).
Proof.
  intros Hport Hopen Hidn.
  match goal with |- _ = ?rhs => remember rhs as goal_world eqn:Hgoal end.
  unfold run, main, connect, configure, initial.
  fold (port_listed a m). rewrite Hport, Hopen. cbn [negb when].
  connect_steps.
  rewrite bind_ser_open. world_simpl. rewrite bind_bind, bind_ser_is_open.
  world_simpl. cbn [negb when].
  connect_steps.
  rewrite Hidn, String.eqb_refl. cbn [negb when].
  connect_steps.
  subst goal_world. unfold configured, identification_commands,
    configuration_commands.
  connect_steps. rewrite Hidn. reflexivity.
Qed.

(** With the port listed and opened, any other identification ends the
    script right after the two identification commands. *)
Lemma main_mismatch (a : args) (m : machine) (device : list string) :
  port_listed a m = true ->
  open_result m = Opens ->
  drop_last (hd "" device) <> expected_IDN ->
  run a m device =
  (SysExit,
   {| rx := tl device;
      tx := identification_commands;
      is_open := true;
      close_calls := O;
      stdout := [[CStr "Identification: "; CStr (drop_last (hd "" device))];
                 mismatch_message a];
      files := [];
      plots := [] |}).
Proof.
  intros Hport Hopen Hidn.
  unfold run, main, connect, initial.
  fold (port_listed a m). rewrite Hport, Hopen. cbn [negb when].
  connect_steps.
  rewrite bind_ser_open. world_simpl. rewrite bind_bind, bind_ser_is_open.
  world_simpl. cbn [negb when].
  connect_steps.
  apply String.eqb_neq in Hidn. rewrite Hidn. cbn [negb when].
  connect_steps. reflexivity.
Qed.

(** ** Channel selection *)

Lemma find_char (c : ascii) (s : string) :
  (find s (String c EmptyString) >=? 0) = occurs c s.
Proof.
  unfold find, occurs.
  induction s as [|b s IH].
  - reflexivity.
  - cbn [list_ascii_of_string existsb index].
    with_strategy transparent [prefix] cbn [prefix].
    destruct (ascii_dec c b) as [e|n].
    + subst b. rewrite Ascii.eqb_refl.
      replace (prefix EmptyString s) with true by (destruct s; reflexivity).
      reflexivity.
    + apply Ascii.eqb_neq in n. rewrite n. cbn [orb].
      rewrite <- IH.
      destruct (index 0 (String c EmptyString) s) as [k|]; [|reflexivity].
      unfold Z.geb.
      destruct (Z.of_nat (S k)) eqn:E1; destruct (Z.of_nat k) eqn:E2;
        simpl; try reflexivity; lia.
Qed.

(** The selection is the ascending list of the digits 1 to 4 that occur in
    the specifier. *)
Lemma ACQ_CH_digits (s : string) :
  ACQ_CH (Some s) = filter (fun i => occurs (digit_char i) s) [1; 2; 3; 4].
Proof.
  unfold ACQ_CH.
  change (range 1 5) with [1; 2; 3; 4].
  cbn [filter].
  change (str 1) with (String (digit_char 1) EmptyString).
  change (str 2) with (String (digit_char 2) EmptyString).
  change (str 3) with (String (digit_char 3) EmptyString).
  change (str 4) with (String (digit_char 4) EmptyString).
  rewrite !find_char. reflexivity.
Qed.

Lemma occurs_false (c : ascii) (s : string) :
  ~ In c (list_ascii_of_string s) -> occurs c s = false.
Proof.
  intros H. unfold occurs.
  destruct (existsb (Ascii.eqb c) (list_ascii_of_string s)) eqn:E; [|reflexivity].
  apply existsb_exists in E. destruct E as [x [Hx Hc]].
  apply Ascii.eqb_eq in Hc. subst x. contradiction.
Qed.

Lemma bench_keeps_length : keeps_length bench.
Proof.
  intros x w o y H. cbn [bench savgol_filter] in H.
  unfold savgol_checks_only in H.
  destruct (_ || _); inversion H. reflexivity.
Qed.

(** * The claims *)

(** ** Decoding and calibration *)

(** What a channel that went through has written, column by column. *)
Lemma acquire_columns (smoothing : bool) (sp now : string) (m : machine)
    (ch : Z) (w w' : world) :
  keeps_length m ->
  acquire smoothing sp now m ch w = (Ok tt, w') ->
  let ch_conf := split ";"%char (drop_last (hd "" (tl (rx w)))) in
  let curve := drop_last (hd "" (tl (tl (rx w)))) in
  exists XINC XZERO YM pos raw smoothed f,
    number ch_conf 8 = Some XINC /\ number ch_conf 10 = Some XZERO /\
    number ch_conf 12 = Some YM /\ number ch_conf 14 = Some pos /\
    decode_Y YM curve = Some raw /\
    (smoothing = true ->
     savgol_filter m raw smooth_window smooth_order = Some smoothed) /\
    files w' = (files w ++ [f])%list /\
    List.length (data_rows f) = List.length raw /\
    column 0 (data_rows f) = map num (decode_X XINC XZERO (List.length raw)) /\
    column 1 (data_rows f) = map num (remove_offset (pos * YM)%float raw) /\
    (smoothing = true -> column 2 (data_rows f) = map num smoothed).
Proof.
  intros Hm H ch_conf curve.
  destruct (acquire_Ok _ _ _ _ _ _ _ H)
    as (WFID & XUNIT & YUNIT & XINC & XZERO & YM & YZERO & pos & raw & smoothed
        & _ & _ & _ & H8 & H10 & H12 & _ & H14 & HY & HS & Hf & _ & _).
  exists XINC, XZERO, YM, pos, raw, smoothed.
  eexists. repeat (split; [eassumption|]).
  assert (Hlen : smoothing = true -> List.length smoothed = List.length raw).
  { intros ->. apply (Hm _ _ _ _ HS). }
  split; [intros ->; exact HS|].
  split; [exact Hf|].
  unfold data_rows, channel_file. cbn [file_rows].
  split.
  - rewrite csv_rows_count, decode_X_length, remove_offset_length.
    destruct smoothing; [rewrite (Hlen eq_refl)|]; lia.
  - apply csv_rows_columns.
    + rewrite decode_X_length, remove_offset_length. reflexivity.
    + intros Hs. rewrite remove_offset_length. exact (Hlen Hs).
Qed.

(** C1, counterexample.  With the preamble of the end-to-end scenario
    (multiplier 0.04, raw position 512) and the single sample 114, the file
    holds -15.92, while rounding the product 114 * 0.04 to 15 digits before
    the subtraction gives -15.920000000000002, whichever of Python's and
    NumPy's rounding is used at either place. *)
Lemma calibration_counterexample :
  let persisted := (-15.92)%float in
  let device := answers (setup_answers ++ ["CH1"; scenario_preamble; "114"]) in
  columns_written 1 (run (only_channel_1 false) bench device) = [[num persisted]] /\
  round (round (114 * 0.04) 15 - 512 * 0.04) 15 <> persisted /\
  np_round (np_round (114 * 0.04) 15 - 512 * 0.04) 15 <> persisted /\
  np_round (round (114 * 0.04) 15 - 512 * 0.04) 15 <> persisted /\
  round (np_round (114 * 0.04) 15 - 512 * 0.04) 15 <> persisted.
Proof.
  cbv zeta.
  split; [vm_compute; reflexivity|].
  repeat split; intros H; apply (f_equal Prim2SF) in H; vm_compute in H;
    discriminate H.
Qed.

(** C1, amended.  For every channel that decodes, the voltage persisted for
    the sample [s] is [np_round (s * y_multiplier - y_position) 15] with
    [y_position] the raw position field times the multiplier: the product is
    not rounded before the position is subtracted, and the one rounding is
    NumPy's. *)
Theorem persisted_voltage (smoothing : bool) (sp now : string) (m : machine)
    (ch : Z) (w w' : world) (YM pos : float64) :
  keeps_length m ->
  acquire smoothing sp now m ch w = (Ok tt, w') ->
  let ch_conf := split ";"%char (drop_last (hd "" (tl (rx w)))) in
  let curve := drop_last (hd "" (tl (tl (rx w)))) in
  number ch_conf 12 = Some YM ->
  number ch_conf 14 = Some pos ->
  exists f samples,
    files w' = (files w ++ [f])%list /\
    traverse float (split ","%char curve) = Some samples /\
    column 1 (data_rows f) =
    map (fun s => num (np_round (s * YM - pos * YM)%float 15)) samples.
Proof.
  intros Hm H ch_conf curve H12 H14.
  destruct (acquire_columns _ _ _ _ _ _ _ Hm H)
    as (XINC & XZERO & YM' & pos' & raw & smoothed & f
        & _ & _ & H12' & H14' & HY & _ & Hf & _ & _ & Hc & _).
  fold ch_conf in H12', H14'. fold curve in HY.
  assert (YM' = YM) by congruence. assert (pos' = pos) by congruence.
  subst YM' pos'.
  destruct (decode_Y_samples _ _ _ HY) as [samples [Ht Hraw]].
  exists f, samples. repeat split; [exact Hf | exact Ht |].
  rewrite Hc, Hraw. unfold remove_offset. rewrite !map_map. reflexivity.
Qed.

(** The scenario preamble with the curve [100,200,114]. *)
Lemma persisted_voltage_witness :
  let w := at_loop (channel_answers "CH1" scenario_preamble "100,200,114") in
  exists f samples,
    files (snd (acquire false "." "now" bench 1 w)) = (files w ++ [f])%list /\
    traverse float (split ","%char "100,200,114") = Some samples /\
    column 1 (data_rows f) =
    map (fun s => num (np_round (s * 0.04 - 512 * 0.04)%float 15)) samples.
Proof.
  cbv zeta.
  apply (persisted_voltage false "." "now" bench 1
           (at_loop (channel_answers "CH1" scenario_preamble "100,200,114"))
           (snd (acquire false "." "now" bench 1
              (at_loop (channel_answers "CH1" scenario_preamble "100,200,114"))))
           0.04%float 512%float).
  - exact bench_keeps_length.
  - vm_compute. reflexivity.
  - vm_compute. reflexivity.
  - vm_compute. reflexivity.
Defined.

(** C2.  For every channel that decodes and every index [i] into the curve,
    the persisted time is [round (i * x_increment + x_zero) 15], with
    Python's [round]. *)
Theorem persisted_time (smoothing : bool) (sp now : string) (m : machine)
    (ch : Z) (w w' : world) (XINC XZERO : float64) :
  keeps_length m ->
  acquire smoothing sp now m ch w = (Ok tt, w') ->
  let ch_conf := split ";"%char (drop_last (hd "" (tl (rx w)))) in
  let curve := drop_last (hd "" (tl (tl (rx w)))) in
  number ch_conf 8 = Some XINC ->
  number ch_conf 10 = Some XZERO ->
  exists f,
    files w' = (files w ++ [f])%list /\
    List.length (data_rows f) = List.length (split ","%char curve) /\
    forall i, (i < List.length (split ","%char curve))%nat ->
      nth_error (column 0 (data_rows f)) i =
      Some (num (round (F64.of_Z (Z.of_nat i) * XINC + XZERO)%float 15)).
Proof.
  intros Hm H ch_conf curve H8 H10.
  destruct (acquire_columns _ _ _ _ _ _ _ Hm H)
    as (XINC' & XZERO' & YM & pos & raw & smoothed & f
        & H8' & H10' & _ & _ & HY & _ & Hf & Hn & Hc & _).
  fold ch_conf in H8', H10'. fold curve in HY.
  assert (XINC' = XINC) by congruence. assert (XZERO' = XZERO) by congruence.
  subst XINC' XZERO'.
  assert (Hraw : List.length raw = List.length (split ","%char curve))
    by (apply (traverse_length _ _ _ HY)).
  exists f. repeat split; [exact Hf | congruence |].
  intros i Hi. rewrite Hc, nth_error_map, decode_X_nth by lia. reflexivity.
Qed.

(** The scenario preamble with the curve [100,200,300]. *)
Lemma persisted_time_witness :
  let w := at_loop (channel_answers "CH1" scenario_preamble "100,200,300") in
  exists f,
    files (snd (acquire false "." "now" bench 1 w)) = (files w ++ [f])%list /\
    List.length (data_rows f) = List.length (split ","%char "100,200,300") /\
    forall i, (i < List.length (split ","%char "100,200,300"))%nat ->
      nth_error (column 0 (data_rows f)) i =
      Some (num (round (F64.of_Z (Z.of_nat i) * 1e-6 + 0)%float 15)).
Proof.
  cbv zeta.
  apply (persisted_time false "." "now" bench 1
           (at_loop (channel_answers "CH1" scenario_preamble "100,200,300"))
           (snd (acquire false "." "now" bench 1
              (at_loop (channel_answers "CH1" scenario_preamble "100,200,300"))))
           1e-6%float 0%float).
  - exact bench_keeps_length.
  - vm_compute. reflexivity.
  - vm_compute. reflexivity.
  - vm_compute. reflexivity.
Defined.

(** C3.  For every channel that decodes, the time axis, the scaled samples
    and the calibrated samples (the sequences that are plotted and written)
    have one length: the number of comma-separated tokens of the curve
    response, one more than its commas. *)
Theorem sequences_have_one_length (smoothing : bool) (sp now : string)
    (m : machine) (ch : Z) (w w' : world) :
  acquire smoothing sp now m ch w = (Ok tt, w') ->
  let ch_conf := split ";"%char (drop_last (hd "" (tl (rx w)))) in
  let curve := drop_last (hd "" (tl (tl (rx w)))) in
  let n := List.length (split ","%char curve) in
  exists time raw calibrated smoothed XUNIT YUNIT f,
    plots w' =
      (plots w ++ if smoothing then [Scatter time raw; Plot time smoothed]
                  else [Plot time raw])%list /\
    files w' = (files w ++ [f])%list /\
    file_rows f = csv_rows smoothing ch_conf XUNIT YUNIT time calibrated smoothed /\
    List.length time = n /\ List.length raw = n /\
    List.length calibrated = n /\ n = S (count_char ","%char curve).
Proof.
  intros H ch_conf curve n.
  destruct (acquire_Ok _ _ _ _ _ _ _ H)
    as (WFID & XUNIT & YUNIT & XINC & XZERO & YM & YZERO & pos & raw & smoothed
        & _ & _ & _ & _ & _ & _ & _ & _ & HY & _ & Hf & Hp & _).
  fold curve in HY.
  assert (Hraw : List.length raw = n) by (apply (traverse_length _ _ _ HY)).
  exists (decode_X XINC XZERO (List.length raw)), raw,
    (remove_offset (pos * YM)%float raw), smoothed, XUNIT, YUNIT.
  eexists. split; [exact Hp|]. split; [exact Hf|].
  split; [reflexivity|].
  rewrite decode_X_length, remove_offset_length.
  repeat split; try exact Hraw.
  unfold n. apply split_length.
Qed.

(** Three tokens, two commas. *)
Lemma sequences_have_one_length_witness :
  let w := at_loop (channel_answers "CH1" scenario_preamble "100,200,300") in
  let w' := snd (acquire false "." "now" bench 1 w) in
  exists time raw calibrated smoothed XUNIT YUNIT f,
    plots w' = (plots w ++ [Plot time raw])%list /\
    files w' = (files w ++ [f])%list /\
    file_rows f =
      csv_rows false (split ";"%char scenario_preamble) XUNIT YUNIT time
        calibrated smoothed /\
    List.length time = 3%nat /\ List.length raw = 3%nat /\
    List.length calibrated = 3%nat /\
    3%nat = S (count_char ","%char "100,200,300").
Proof.
  cbv zeta.
  apply (sequences_have_one_length false "." "now" bench 1
           (at_loop (channel_answers "CH1" scenario_preamble "100,200,300"))
           (snd (acquire false "." "now" bench 1
              (at_loop (channel_answers "CH1" scenario_preamble "100,200,300"))))).
  vm_compute. reflexivity.
Defined.

(** C4.  The end-to-end scenario: with [x_increment = 1e-6], [x_zero = 0],
    [y_multiplier = 0.04], raw position 512 and the curve [100,200,300] the
    script plots the times [0, 1e-6, 2e-6] against the voltages
    [4.0, 8.0, 12.0] and writes the calibrated voltages
    [-16.48, -12.48, -8.48]; every number is the binary64 value of the
    decimal shown. *)
Theorem end_to_end_scenario :
  let ch_conf := split ";"%char scenario_preamble in
  let device :=
    answers (setup_answers ++ ["CH1"; scenario_preamble; "100,200,300"]) in
  let out := run (only_channel_1 false) bench device in
  number ch_conf 8 = Some 1e-6%float /\ number ch_conf 10 = Some 0%float /\
  number ch_conf 12 = Some 0.04%float /\ number ch_conf 14 = Some 512%float /\
  (512 * 0.04 = 20.48)%float /\
  fst out = Ok tt /\
  plots (snd out) =
    [Figure; Suptitle "Acquired data";
     Plot [0%float; 1e-6%float; 2e-6%float] [4%float; 8%float; 12%float];
     Show] /\
  map data_rows (files (snd out)) =
    [[[CNum 0; CNum (-16.48)]; [CNum 1e-6; CNum (-12.48)];
      [CNum 2e-6; CNum (-8.48)]]].
Proof.
  cbv zeta. repeat split; vm_compute; reflexivity.
Qed.

(** ** Channel selection *)

(** C5, counterexample.  An empty specifier, and one without any of the
    digits 1 to 4, select no channel at all, not channels 1 and 2. *)
Lemma channel_selection_counterexample :
  ACQ_CH (Some "") = [] /\ ACQ_CH (Some "x7,9") = [] /\
  ACQ_CH (Some "") <> [1; 2] /\ ACQ_CH (Some "x7,9") <> [1; 2].
Proof.
  repeat split; try (vm_compute; reflexivity); vm_compute; discriminate.
Qed.

(** C5, amended.  ["134"] selects 1, 3, 4 in ascending order and ["24"]
    selects 2, 4; the default 1, 2 is what an absent specifier selects; a
    specifier without any of the digits 1 to 4 (the empty one included)
    selects nothing. *)
Theorem channel_selection_parsing (s : string) :
  (forall c, In c (list_ascii_of_string s) ->
             ~ In c ["1"; "2"; "3"; "4"]%char) ->
  ACQ_CH (Some "134") = [1; 3; 4] /\
  ACQ_CH (Some "24") = [2; 4] /\
  ACQ_CH None = [1; 2] /\
  ACQ_CH (Some s) = [].
Proof.
  intros Hs.
  repeat split; try (vm_compute; reflexivity).
  rewrite ACQ_CH_digits. cbn [filter].
  rewrite !occurs_false; [reflexivity| | | |];
    intros Hin; apply (Hs _ Hin); cbn; auto.
Qed.

(** A specifier with digits, but none of 1 to 4. *)
Lemma channel_selection_parsing_witness :
  ACQ_CH (Some "134") = [1; 3; 4] /\
  ACQ_CH (Some "24") = [2; 4] /\
  ACQ_CH None = [1; 2] /\
  ACQ_CH (Some "x7,9") = [].
Proof.
  apply (channel_selection_parsing "x7,9").
  intros c Hc Hd. cbn in Hc, Hd.
  repeat match goal with
         | H : _ \/ _ |- _ => destruct H as [H|H]
         end;
    try contradiction; subst c; discriminate.
Defined.

(** ** Errors *)

(** C6, counterexample.  Four channels are selected and the preamble of
    channel 2 has three fields: the [IndexError] ends the whole run.  Only
    the file of channel 1 exists, and the last commands sent are the three
    of channel 2: channels 3 and 4 are never addressed. *)
Lemma bad_preamble_counterexample :
  let out := run all_channels bench second_preamble_short in
  ACQ_CH (channels all_channels) = [1; 2; 3; 4] /\
  fst out = Raised IndexError /\
  map file_name (files (snd out)) = ["2024-01-02 03-04-05 CH1.csv"] /\
  tx (snd out) =
    (identification_commands ++ configuration_commands ++
     channel_commands 1 ++ firstn 3 (channel_commands 2))%list /\
  List.length (rx (snd out)) = 7%nat.
Proof.
  cbv zeta. repeat split; vm_compute; reflexivity.
Qed.

(** C6, amended.  A malformed preamble (fewer than 16 fields, or a numeric
    field that does not parse) ends the channel loop at that channel with an
    uncaught [IndexError] or [ValueError]: the channels before it keep their
    records, no record, partial or whole, is written for the failing channel,
    and the channels after it are not processed. *)
Theorem bad_preamble_ends_the_loop (smoothing : bool) (sp now : string)
    (m : machine) (before after : list Z) (ch : Z) (w w1 : world) :
  for_each before (acquire smoothing sp now m) w = (Ok tt, w1) ->
  is_open w1 = true ->
  malformed (split ";"%char (drop_last (hd "" (tl (rx w1))))) ->
  exists e w2,
    for_each (before ++ ch :: after) (acquire smoothing sp now m) w
      = (Raised e, w2) /\
    (e = IndexError \/ e = ValueError) /\
    files w2 = files w1 /\
    tx w2 = (tx w1 ++ firstn 3 (channel_commands ch))%list /\
    close_calls w2 = close_calls w1.
Proof.
  intros Hbefore Ho Hbad.
  destruct (acquire_malformed smoothing sp now m ch w1 Ho Hbad)
    as (e & w2 & Hrun & He & Hf & _ & Ht & _ & Hc).
  exists e, w2. split; [|auto].
  rewrite for_each_app. unfold bind at 1. rewrite Hbefore.
  cbn [for_each]. unfold bind. rewrite Hrun. reflexivity.
Qed.

(** Channel 1 goes through, channel 2 answers a preamble of nine fields. *)
Lemma bad_preamble_ends_the_loop_witness :
  let w := at_loop (channel_answers "CH1" scenario_preamble "100,200,300" ++
                    channel_answers "CH2" "2;16;ASC;RP;MSB;3;Ch2;Y;1e-6" "7" ++
                    channel_answers "CH3" scenario_preamble "100,200,300") in
  let w1 := snd (for_each [1] (acquire false "." "now" bench) w) in
  exists e w2,
    for_each ([1] ++ 2 :: [3]) (acquire false "." "now" bench) w
      = (Raised e, w2) /\
    (e = IndexError \/ e = ValueError) /\
    files w2 = files w1 /\
    tx w2 = (tx w1 ++ firstn 3 (channel_commands 2))%list /\
    close_calls w2 = close_calls w1.
Proof.
  cbv zeta.
  apply (bad_preamble_ends_the_loop false "." "now" bench [1] [3] 2).
  - vm_compute. reflexivity.
  - vm_compute. reflexivity.
  - left. vm_compute. lia.
Defined.

(** C7.  With the port listed and opened: when the line read back, without
    its last character, is the expected literal, the script does not exit
    and the ten configuration commands follow the two identification
    commands; when it is any other string (so also one that differs in a
    single character), the script prints the mismatch message and exits
    with nothing sent after the identification query. *)
Theorem identification_gate (a : args) (m : machine) (device : list string) :
  port_listed a m = true ->
  open_result m = Opens ->
  let IDN := drop_last (hd "" device) in
  let out := run a m device in
  (IDN = expected_IDN ->
     fst out <> SysExit /\
     firstn 12 (tx (snd out)) =
       (identification_commands ++ configuration_commands)%list) /\
  (IDN <> expected_IDN ->
     fst out = SysExit /\
     tx (snd out) = identification_commands /\
     last (stdout (snd out)) [] = mismatch_message a /\
     files (snd out) = []).
Proof.
  intros Hport Hopen IDN out. split; intros Hidn.
  - subst out. rewrite (main_identified a m device Hport Hopen Hidn).
    match goal with
    | |- context [?tail (configured a m device)] =>
        destruct (tail (configured a m device)) as [r w'] eqn:E
    end.
    apply steady_acquisition in E. destruct E as [Hr [l Hl]].
    cbn [fst snd]. split; [exact Hr|].
    rewrite Hl. reflexivity.
  - subst out. rewrite (main_mismatch a m device Hport Hopen Hidn).
    repeat split.
Qed.

(** The expected instrument, and a TDS 3054. *)
Lemma identification_gate_witness :
  let good := answers (setup_answers ++ ["CH1"; scenario_preamble; "1,2"]) in
  let bad := answers [other_IDN] in
  (fst (run (only_channel_1 false) bench good) <> SysExit /\
   firstn 12 (tx (snd (run (only_channel_1 false) bench good))) =
     (identification_commands ++ configuration_commands)%list) /\
  (fst (run (only_channel_1 false) bench bad) = SysExit /\
   tx (snd (run (only_channel_1 false) bench bad)) = identification_commands /\
   last (stdout (snd (run (only_channel_1 false) bench bad))) [] =
     mismatch_message (only_channel_1 false) /\
   files (snd (run (only_channel_1 false) bench bad)) = []).
Proof.
  cbv zeta. split.
  - apply (identification_gate (only_channel_1 false) bench
             (answers (setup_answers ++ ["CH1"; scenario_preamble; "1,2"])));
      reflexivity.
  - apply (identification_gate (only_channel_1 false) bench
             (answers [other_IDN])); [reflexivity | reflexivity |].
    vm_compute. discriminate.
Defined.

(** Whatever else the instrument says it is, the script exits with the port
    open and [ser.close()] never called. *)
Lemma mismatch_leaves_the_port_open (a : args) (m : machine)
    (device : list string) :
  port_listed a m = true ->
  open_result m = Opens ->
  drop_last (hd "" device) <> expected_IDN ->
  fst (run a m device) = SysExit /\
  is_open (snd (run a m device)) = true /\
  close_calls (snd (run a m device)) = 0%nat.
Proof.
  intros Hport Hopen Hidn.
  rewrite (main_mismatch a m device Hport Hopen Hidn). repeat split.
Qed.

(** C8.  An instrument that identifies itself as a TDS 3054 makes the
    script exit with the port open: [ser.close()] is not called on that
    path, while a run that completes calls it once and leaves the port
    closed.  When the port is not listed or does not open, no connection
    exists at the exit. *)
Theorem mismatch_exit_leaves_the_port_open :
  let wrong := run (only_channel_1 false) bench (answers [other_IDN]) in
  let complete :=
    run (only_channel_1 false) bench
      (answers (setup_answers ++ ["CH1"; scenario_preamble; "100,200,300"])) in
  let unlisted :=
    run {| COMport := "COM7"; channels := None; smooth := false;
           save_path := None |} bench [] in
  let unopened :=
    run (only_channel_1 false)
      {| comports := ["COM3"]; open_result := StaysClosed; clock := "";
         savgol_filter := savgol_checks_only |} [] in
  (fst wrong = SysExit /\ is_open (snd wrong) = true /\
   close_calls (snd wrong) = 0%nat) /\
  (fst complete = Ok tt /\ is_open (snd complete) = false /\
   close_calls (snd complete) = 1%nat) /\
  (fst unlisted = SysExit /\ is_open (snd unlisted) = false) /\
  (fst unopened = SysExit /\ is_open (snd unopened) = false).
Proof.
  cbv zeta. repeat split; vm_compute; reflexivity.
Qed.

(** ** Smoothing *)

(** C9, counterexample.  With smoothing requested and a curve of three
    samples, fewer than the window of eleven, the run fails only inside the
    filter call of channel 1: the error is the library's [ValueError], and
    by then the four commands of the channel have been sent and its
    preamble and curve read. *)
Lemma smoothing_check_counterexample :
  let device :=
    answers (setup_answers ++ ["CH1"; scenario_preamble; "100,200,300"]) in
  let out := run (only_channel_1 true) bench device in
  fst out = Raised ValueError /\
  tx (snd out) =
    (identification_commands ++ configuration_commands ++ channel_commands 1)%list /\
  rx (snd out) = [] /\
  files (snd out) = [].
Proof.
  cbv zeta. repeat split; vm_compute; reflexivity.
Qed.

(** C9, amended.  The script checks no smoothing precondition itself.  Its
    window 11 is odd and greater than its order 2 by construction; a series
    the filter rejects (one shorter than the window) is rejected by the
    filter call inside the channel loop, after the channel's four commands
    have been sent and its preamble and curve decoded, and the [ValueError]
    ends the run with no file written for the channel. *)
Theorem smoothing_is_checked_in_the_loop (sp now : string) (m : machine)
    (ch : Z) (w : world) (WFID XUNIT YUNIT : string)
    (XINC XZERO YM YZERO pos : float64) (raw : list float64) :
  let ch_conf := split ";"%char (drop_last (hd "" (tl (rx w)))) in
  let curve := drop_last (hd "" (tl (tl (rx w)))) in
  is_open w = true ->
  item ch_conf 6 = Some WFID -> item ch_conf 11 = Some XUNIT ->
  item ch_conf 15 = Some YUNIT ->
  number ch_conf 8 = Some XINC -> number ch_conf 10 = Some XZERO ->
  number ch_conf 12 = Some YM -> number ch_conf 13 = Some YZERO ->
  number ch_conf 14 = Some pos ->
  decode_Y YM curve = Some raw ->
  savgol_filter m raw smooth_window smooth_order = None ->
  Z.odd smooth_window = true /\ smooth_order < smooth_window /\
  exists w',
    acquire true sp now m ch w = (Raised ValueError, w') /\
    tx w' = (tx w ++ channel_commands ch)%list /\
    files w' = files w.
Proof.
  intros ch_conf curve Ho H6 H11 H15 H8 H10 H12 H13 H14 HY HS.
  split; [reflexivity|]. split; [reflexivity|].
  destruct (acquire_filter_rejects sp now m ch w WFID XUNIT YUNIT XINC XZERO
              YM YZERO pos raw Ho H6 H11 H15 H8 H10 H12 H13 H14 HY HS)
    as (w' & Hrun & Ht & Hf & _).
  exists w'. auto.
Qed.

(** Three samples against a window of eleven. *)
Lemma smoothing_is_checked_in_the_loop_witness :
  let w := at_loop (channel_answers "CH1" scenario_preamble "100,200,300") in
  Z.odd smooth_window = true /\ smooth_order < smooth_window /\
  exists w',
    acquire true "." "now" bench 1 w = (Raised ValueError, w') /\
    tx w' = (tx w ++ channel_commands 1)%list /\
    files w' = files w.
Proof.
  cbv zeta.
  apply (smoothing_is_checked_in_the_loop "." "now" bench 1
           (at_loop (channel_answers "CH1" scenario_preamble "100,200,300"))
           "Ch1, DC coupling, 3 points" "s" "V"
           1e-6%float 0%float 0.04%float 0%float 512%float
           [4%float; 8%float; 12%float]);
    vm_compute; reflexivity.
Defined.

(** C10.  With smoothing on, the third column of the channel's file is the
    output of the filter applied to the samples times the multiplier, the
    series as it is before the position offset is removed; the second
    column is that same series with the offset subtracted and rounded.  The
    smoothed column is written as the filter returned it. *)
Theorem smoothed_column_keeps_the_offset (sp now : string) (m : machine)
    (ch : Z) (w w' : world) (YM pos : float64) :
  keeps_length m ->
  acquire true sp now m ch w = (Ok tt, w') ->
  let ch_conf := split ";"%char (drop_last (hd "" (tl (rx w)))) in
  let curve := drop_last (hd "" (tl (tl (rx w)))) in
  number ch_conf 12 = Some YM ->
  number ch_conf 14 = Some pos ->
  exists f samples smoothed,
    files w' = (files w ++ [f])%list /\
    traverse float (split ","%char curve) = Some samples /\
    savgol_filter m (map (fun s => s * YM)%float samples)
      smooth_window smooth_order = Some smoothed /\
    column 2 (data_rows f) = map num smoothed /\
    column 1 (data_rows f) =
      map (fun s => num (np_round (s * YM - pos * YM)%float 15)) samples.
Proof.
  intros Hm H ch_conf curve H12 H14.
  destruct (acquire_columns _ _ _ _ _ _ _ Hm H)
    as (XINC & XZERO & YM' & pos' & raw & smoothed & f
        & _ & _ & H12' & H14' & HY & HS & Hf & _ & _ & Hc1 & Hc2).
  fold ch_conf in H12', H14'. fold curve in HY.
  assert (YM' = YM) by congruence. assert (pos' = pos) by congruence.
  subst YM' pos'.
  destruct (decode_Y_samples _ _ _ HY) as [samples [Ht Hraw]].
  exists f, samples, smoothed.
  split; [exact Hf|]. split; [exact Ht|].
  split; [rewrite <- Hraw; exact (HS eq_refl)|].
  split; [exact (Hc2 eq_refl)|].
  rewrite Hc1, Hraw. unfold remove_offset. rewrite !map_map. reflexivity.
Qed.

(** Eleven samples, which the stand-in filter accepts. *)
Lemma smoothed_column_keeps_the_offset_witness :
  let w := at_loop (channel_answers "CH1" scenario_preamble eleven_samples) in
  exists f samples smoothed,
    files (snd (acquire true "." "now" bench 1 w)) = (files w ++ [f])%list /\
    traverse float (split ","%char eleven_samples) = Some samples /\
    savgol_filter bench (map (fun s => s * 0.04)%float samples)
      smooth_window smooth_order = Some smoothed /\
    column 2 (data_rows f) = map num smoothed /\
    column 1 (data_rows f) =
      map (fun s => num (np_round (s * 0.04 - 512 * 0.04)%float 15)) samples.
Proof.
  cbv zeta.
  apply (smoothed_column_keeps_the_offset "." "now" bench 1
           (at_loop (channel_answers "CH1" scenario_preamble eleven_samples))
           (snd (acquire true "." "now" bench 1
              (at_loop (channel_answers "CH1" scenario_preamble eleven_samples))))
           0.04%float 512%float).
  - exact bench_keeps_length.
  - vm_compute. reflexivity.
  - vm_compute. reflexivity.
  - vm_compute. reflexivity.
Defined.

(** * Further properties of the script *)

(** ** The exits of [connect] *)

Lemma main_unlisted (a : args) (m : machine) (device : list string) :
  port_listed a m = false ->
  run a m device =
  (SysExit,
   {| rx := device; tx := []; is_open := false; close_calls := O;
      stdout := unlisted_messages m; files := []; plots := [] |}).
Proof.
  intros Hport.
  unfold run, main, connect, initial.
  fold (port_listed a m). rewrite Hport. cbn [negb when].
  connect_steps. reflexivity.
Qed.

Lemma main_stays_closed (a : args) (m : machine) (device : list string) :
  port_listed a m = true ->
  open_result m = StaysClosed ->
  run a m device =
  (SysExit,
   {| rx := device; tx := []; is_open := false; close_calls := O;
      stdout := [[CStr "Cannot open "; CStr (COMport a);
                  CStr " serial port. Exiting..."]];
      files := []; plots := [] |}).
Proof.
  intros Hport Hopen.
  unfold run, main, connect, initial.
  fold (port_listed a m). rewrite Hport, Hopen. cbn [negb when].
  connect_steps. reflexivity.
Qed.

Lemma main_open_raises (a : args) (m : machine) (device : list string) :
  port_listed a m = true ->
  open_result m = OpenRaises ->
  run a m device = (Raised SerialException, initial device).
Proof.
  intros Hport Hopen.
  unfold run, main, connect, initial.
  fold (port_listed a m). rewrite Hport, Hopen. cbn [negb when].
  connect_steps. reflexivity.
Qed.

(** The tail of the script, as [main_identified] leaves it. *)
Lemma main_identified_acquisition (a : args) (m : machine)
    (device : list string) :
  port_listed a m = true ->
  open_result m = Opens ->
  drop_last (hd "" device) = expected_IDN ->
  run a m device =
  acquisition (smooth a) (match save_path a with None => "." | Some d => d end)
    (clock m) m (ACQ_CH (channels a)) (configured a m device).
Proof. exact (main_identified a m device). Qed.

(** A run that is not stopped by [connect] is the acquisition from the
    configured world. *)
Lemma run_cases (a : args) (m : machine) (device : list string) :
  (fst (run a m device) = SysExit /\ close_calls (snd (run a m device)) = O /\
   tx (snd (run a m device)) = firstn (List.length (tx (snd (run a m device))))
                                 identification_commands /\
   files (snd (run a m device)) = []) \/
  (run a m device = (Raised SerialException, initial device)) \/
  (port_listed a m = true /\ open_result m = Opens /\
   drop_last (hd "" device) = expected_IDN /\
   run a m device =
   acquisition (smooth a) (match save_path a with None => "." | Some d => d end)
     (clock m) m (ACQ_CH (channels a)) (configured a m device)).
Proof.
  destruct (port_listed a m) eqn:Hport.
  - destruct (open_result m) eqn:Hopen.
    + destruct (String.eqb (drop_last (hd "" device)) expected_IDN) eqn:Hidn.
      * apply String.eqb_eq in Hidn. right. right.
        repeat split; auto. apply main_identified_acquisition; assumption.
      * apply String.eqb_neq in Hidn. left.
        rewrite (main_mismatch a m device Hport Hopen Hidn).
        repeat split.
    + left. rewrite (main_stays_closed a m device Hport Hopen). repeat split.
    + right. left. apply main_open_raises; assumption.
  - left. rewrite (main_unlisted a m device Hport). repeat split.
Qed.

(** ** The port is left alone until the end *)

Lemma calm_bind (A B : Type) (m : M A) (k : A -> M B) :
  calm m -> (forall a, calm (k a)) -> calm (bind m k).
Proof.
  intros Hm Hk w r w' H. unfold bind in H.
  destruct (m w) as [[a| |e] w1] eqn:E;
    destruct (Hm _ _ _ E) as (Hne & Ho & Hc).
  - destruct (Hk a _ _ _ H) as (Hr & Ho' & Hc').
    repeat split; [exact Hr | congruence | congruence].
  - congruence.
  - inversion H; subst. repeat split; [discriminate | exact Ho | exact Hc].
Qed.

Lemma calm_ret (A : Type) (a : A) : calm (ret a).
Proof. intros w r w' H. inversion H. repeat split. discriminate. Qed.

Lemma calm_orraise (A : Type) (e : exn) (o : option A) : calm (orraise e o).
Proof.
  intros w r w' H. destruct o; inversion H; repeat split; discriminate.
Qed.

Lemma calm_print (r : row) : calm (print r).
Proof. intros w r' w' H. inversion H. repeat split. discriminate. Qed.

Lemma calm_plt (c : plot_call) : calm (plt c).
Proof. intros w r' w' H. inversion H. repeat split. discriminate. Qed.

Lemma calm_write_csv (d n : string) (rows : list row) : calm (write_csv d n rows).
Proof. intros w r' w' H. inversion H. repeat split. discriminate. Qed.

Lemma calm_readline : calm readline.
Proof.
  intros w r' w' H. unfold readline in H.
  destruct (is_open w) eqn:E; inversion H; subst; repeat split;
    first [discriminate | assumption | simpl; assumption].
Qed.

Lemma calm_write (c : string) : calm (write c).
Proof.
  intros w r' w' H. unfold write in H.
  destruct (is_open w) eqn:E; inversion H; subst; repeat split;
    first [discriminate | assumption | simpl; assumption].
Qed.

Lemma calm_for_each (A : Type) (l : list A) (body : A -> M unit) :
  (forall x, calm (body x)) -> calm (for_each l body).
Proof.
  intros Hb. induction l as [|x l IH]; simpl.
  - apply calm_ret.
  - apply calm_bind; [apply Hb | intros _; exact IH].
Qed.

Create HintDb calm.

#[local] Hint Resolve calm_ret calm_orraise calm_print calm_plt calm_write_csv
  calm_readline calm_write : calm.

Ltac calm_chain :=
  repeat first
    [ apply calm_bind; [| intro]
    | match goal with |- calm (if ?b then _ else _) => destruct b end
    | solve [auto with calm] ].

Lemma calm_acquire (smoothing : bool) (sp now : string) (m : machine) (ch : Z) :
  calm (acquire smoothing sp now m ch).
Proof. unfold acquire. calm_chain. Qed.

Lemma closes_on_return_bind (A : Type) (m : M A) (k : A -> M unit) :
  calm m -> (forall a, closes_on_return (k a)) -> closes_on_return (bind m k).
Proof.
  intros Hm Hk w r w' H. unfold bind in H.
  destruct (m w) as [[a| |e] w1] eqn:E;
    destruct (Hm _ _ _ E) as (Hne & Ho & Hc).
  - specialize (Hk a _ _ _ H). destruct r; [| exact Hk |];
      destruct Hk as [Ho' Hc']; split; congruence.
  - congruence.
  - inversion H; subst. split; assumption.
Qed.

Lemma closes_on_return_ser_close : closes_on_return ser_close.
Proof. intros w r w' H. inversion H. split; reflexivity. Qed.

Lemma closes_on_return_acquisition (smoothing : bool) (sp now : string)
    (m : machine) (chs : list Z) :
  closes_on_return (acquisition smoothing sp now m chs).
Proof.
  unfold acquisition.
  apply closes_on_return_bind; [apply calm_plt | intros _].
  apply closes_on_return_bind; [apply calm_plt | intros _].
  apply closes_on_return_bind;
    [apply calm_for_each; intro; apply calm_acquire | intros _].
  apply closes_on_return_bind; [apply calm_plt | intros _].
  apply closes_on_return_ser_close.
Qed.

(** ** Lines consumed *)

Lemma tl_skipn (A : Type) (n : nat) (l : list A) :
  tl (skipn n l) = skipn (S n) l.
Proof.
  revert l. induction n as [|n IH]; intros [|x l]; simpl; auto.
Qed.

Lemma skipn_skipn_add (A : Type) (n k : nat) (l : list A) :
  skipn n (skipn k l) = skipn (k + n) l.
Proof.
  revert l. induction k as [|k IH]; intros l; [reflexivity|].
  destruct l as [|x l]; simpl; [apply skipn_nil | apply IH].
Qed.

(** A channel that went through has read three lines and left the port
    open. *)
Lemma acquire_Ok_rx (smoothing : bool) (sp now : string) (m : machine) (ch : Z)
    (w w' : world) :
  acquire smoothing sp now m ch w = (Ok tt, w') ->
  rx w' = skipn 3 (rx w) /\ is_open w = true.
Proof.
  intros H.
  destruct (is_open w) eqn:Ho;
    [| rewrite acquire_closed in H by exact Ho; discriminate].
  split; [|reflexivity].
  destruct w as [rx0 tx0 io cc so fi pl]. simpl in Ho. subst io.
  cbn [rx].
  unfold acquire in H.
  repeat step_in H.
  repeat returns_in H.
  replace (skipn 3 rx0) with (tl (tl (tl rx0)))
    by (destruct rx0 as [|? [|? [|? ?]]]; reflexivity).
  destruct smoothing.
  - rewrite bind_bind in H. step_in H.
    destruct (savgol_filter m l smooth_window smooth_order) as [y_s|];
      [| discriminate H].
    unfold bind, plt, ret, write_csv in H. world_simpl_in H.
    inversion H. reflexivity.
  - unfold bind, plt, ret, write_csv in H. world_simpl_in H.
    inversion H. reflexivity.
Qed.

(** A loop that went through: commands, lines and files add up channel by
    channel. *)
Lemma for_each_Ok (smoothing : bool) (sp now : string) (m : machine)
    (chs : list Z) (w w' : world) :
  for_each chs (acquire smoothing sp now m) w = (Ok tt, w') ->
  tx w' = (tx w ++ flat_map channel_commands chs)%list /\
  rx w' = skipn (3 * List.length chs) (rx w) /\
  List.length (files w') = (List.length (files w) + List.length chs)%nat /\
  firstn (List.length (files w)) (files w') = files w /\
  List.length (plots w') =
    (List.length (plots w) + (if smoothing then 2 else 1) * List.length chs)%nat.
Proof.
  revert w. induction chs as [|ch chs IH]; intros w H.
  - inversion H; subst. cbn [flat_map List.length Nat.mul skipn].
    rewrite app_nil_r, firstn_all. repeat split; lia.
  - cbn [for_each] in H. unfold bind in H.
    destruct (acquire smoothing sp now m ch w) as [[[]| |e] w1] eqn:E;
      try discriminate H.
    destruct (acquire_Ok _ _ _ _ _ _ _ E)
      as (WFID & XUNIT & YUNIT & XINC & XZERO & YM & YZERO & pos & raw
          & smoothed & _ & _ & _ & _ & _ & _ & _ & _ & _ & _ & Hf & Hp & Ht).
    destruct (acquire_Ok_rx _ _ _ _ _ _ _ E) as [Hr _].
    destruct (IH w1 H) as (IHt & IHr & IHf & IHp & IHl).
    rewrite Ht in IHt. rewrite Hr in IHr. rewrite Hf in IHf, IHp.
    rewrite Hp in IHl.
    rewrite length_app in IHf, IHp, IHl. cbn [List.length] in IHf, IHp.
    repeat split.
    + rewrite IHt. cbn [flat_map]. rewrite app_assoc. reflexivity.
    + rewrite IHr, skipn_skipn_add. f_equal. cbn [List.length]. lia.
    + cbn [List.length]. lia.
    + apply (f_equal (firstn (List.length (files w)))) in IHp.
      rewrite firstn_firstn in IHp.
      rewrite firstn_app, firstn_all in IHp.
      replace (Nat.min (List.length (files w)) (List.length (files w) + 1))
        with (List.length (files w)) in IHp by lia.
      replace (List.length (files w) - List.length (files w))%nat with O in IHp
        by lia.
      cbn [firstn] in IHp. rewrite app_nil_r in IHp. exact IHp.
    + rewrite IHl. destruct smoothing; cbn [List.length]; lia.
Qed.

(** ** File names *)

Lemma replace_app (a b : ascii) (s t : string) :
  replace a b (s ++ t) = (replace a b s ++ replace a b t)%string.
Proof.
  induction s as [|c s IH]; [reflexivity|].
  cbn [append replace]. rewrite IH. reflexivity.
Qed.

Lemma replace_clean (a b : ascii) (s : string) :
  a <> b -> occurs a (replace a b s) = false.
Proof.
  intros Hab. unfold occurs.
  induction s as [|c s IH]; [reflexivity|].
  cbn [replace list_ascii_of_string existsb]. rewrite IH, orb_false_r.
  destruct (Ascii.eqb c a) eqn:E.
  - apply Ascii.eqb_neq. exact Hab.
  - rewrite Ascii.eqb_sym. exact E.
Qed.

Lemma occurs_app (c : ascii) (s t : string) :
  occurs c (s ++ t) = occurs c s || occurs c t.
Proof.
  unfold occurs. induction s as [|b s IH]; [reflexivity|].
  cbn [append list_ascii_of_string existsb]. rewrite IH, orb_assoc.
  reflexivity.
Qed.

(** ** Comprehensions that fail *)

Lemma traverse_None (A B : Type) (f : A -> option B) (l : list A) (x : A) :
  In x l -> f x = None -> traverse f l = None.
Proof.
  intros Hin Hx. induction l as [|y l IH]; [contradiction|].
  cbn [traverse]. destruct Hin as [->|Hin].
  - rewrite Hx. reflexivity.
  - destruct (f y); [|reflexivity]. rewrite (IH Hin). reflexivity.
Qed.

Lemma decode_Y_bad_token (YM : float64) (curve d : string) :
  In d (split ","%char curve) -> float d = None -> decode_Y YM curve = None.
Proof.
  intros Hin Hd. unfold decode_Y.
  apply (traverse_None _ _ _ _ d Hin). rewrite Hd. reflexivity.
Qed.

(** Closes the case where a field is missing or is not a number although
    the preamble is not malformed. *)
Ltac not_malformed Hwf :=
  exfalso; apply Hwf; unfold malformed, number;
  first
    [ left;
      match goal with
      | E : item _ _ = None |- _ =>
          unfold item in E; apply nth_error_None in E; lia
      end
    | right;
      repeat match goal with
             | E : item _ _ = Some _ |- _ => rewrite E; clear E
             end;
      tauto ].

(** A preamble that is not malformed is read to the end. *)
Lemma acquire_reads_preamble (smoothing : bool) (sp now : string)
    (m : machine) (ch : Z) (w : world) (YM : float64) :
  let ch_conf := split ";"%char (drop_last (hd "" (tl (rx w)))) in
  let curve := drop_last (hd "" (tl (tl (rx w)))) in
  is_open w = true ->
  ~ malformed ch_conf ->
  number ch_conf 12 = Some YM ->
  (decode_Y YM curve = None ->
   exists w',
     acquire smoothing sp now m ch w = (Raised ValueError, w') /\
     tx w' = (tx w ++ channel_commands ch)%list /\ rx w' = skipn 3 (rx w) /\
     files w' = files w /\ plots w' = plots w) /\
  (forall raw, decode_Y YM curve = Some raw ->
   (smoothing = true ->
    savgol_filter m raw smooth_window smooth_order <> None) ->
   exists w', acquire smoothing sp now m ch w = (Ok tt, w')).
Proof.
  intros ch_conf curve Ho Hwf H12. subst ch_conf curve.
  destruct (acquire smoothing sp now m ch w) as [res w'] eqn:H.
  destruct w as [rx0 tx0 io cc so fi pl]. simpl in Ho. subst io.
  cbn [rx tx files plots is_open close_calls] in *.
  unfold acquire in H. repeat step_in H.
  do 13 (match type of H with
         | match ?o with Some _ => _ | None => _ end = _ =>
             let E := fresh "E" in
             destruct o eqn:E; [ repeat step_in H | not_malformed Hwf ]
         end).
  match type of H with
  | context [decode_Y ?y _] =>
      assert (Hy : y = YM)
        by (unfold number in *;
            repeat match goal with
                   | E : ?o = Some _,
                     Hn : context [match ?o with Some _ => _ | None => _ end] |- _ =>
                       rewrite E in Hn
                   end;
            congruence);
      rewrite Hy in H
  end.
  replace (skipn 3 rx0) with (tl (tl (tl rx0)))
    by (destruct rx0 as [|? [|? [|? ?]]]; reflexivity).
  split.
  - intros HY. rewrite HY in H. inversion H; subst res w'; clear H.
    eexists; split; [reflexivity|].
    cbn [rx tx files plots channel_commands].
    rewrite <- !app_assoc. repeat split; reflexivity.
  - intros raw HY HS. rewrite HY in H.
    destruct smoothing.
    + rewrite bind_bind in H. step_in H.
      destruct (savgol_filter m raw smooth_window smooth_order) as [y_s|];
        [| exfalso; apply (HS eq_refl); reflexivity].
      unfold bind, plt, ret, write_csv in H. world_simpl_in H.
      inversion H. eexists. reflexivity.
    + unfold bind, plt, ret, write_csv in H. world_simpl_in H.
      inversion H. eexists. reflexivity.
Qed.

(** ** Any outcome of a channel *)

Ltac four_sent :=
  exists 4%nat; split; [lia|]; split;
  [ cbn [firstn channel_commands]; rewrite <- !app_assoc; reflexivity
  | first [discriminate | intros _; reflexivity] ].

(** However a channel ends, the commands it has sent are an initial part of
    its four commands, all four when it returns; unless it returns, it has
    plotted and written nothing. *)
Lemma acquire_any (smoothing : bool) (sp now : string) (m : machine) (ch : Z)
    (w : world) (r : result unit) (w' : world) :
  acquire smoothing sp now m ch w = (r, w') ->
  (exists n, (n <= 4)%nat /\
             tx w' = (tx w ++ firstn n (channel_commands ch))%list /\
             (r = Ok tt -> n = 4%nat)) /\
  (r <> Ok tt -> files w' = files w /\ plots w' = plots w).
Proof.
  intros H.
  destruct (is_open w) eqn:Ho.
  2:{ rewrite acquire_closed in H by exact Ho. inversion H; subst. split.
      - exists O. cbn [firstn]. rewrite app_nil_r.
        repeat split; [lia | discriminate].
      - intros _. split; reflexivity. }
  destruct w as [rx0 tx0 io cc so fi pl]. simpl in Ho. subst io.
  cbn [rx tx files plots] in *.
  unfold acquire in H. repeat step_in H.
  do 13 (match type of H with
         | match ?o with Some _ => _ | None => _ end = _ =>
             let E := fresh "E" in
             destruct o eqn:E;
             [ repeat step_in H
             | inversion H; subst r w'; clear H;
               cbn [tx files plots]; split;
               [ exists 3%nat; cbn [firstn channel_commands];
                 rewrite <- !app_assoc;
                 repeat split; [lia | discriminate]
               | intros _; split; reflexivity ] ]
         end).
  match type of H with
  | match ?o with Some _ => _ | None => _ end = _ =>
      destruct o as [raw|] eqn:EY
  end.
  2:{ inversion H; subst r w'; clear H. cbn [tx files plots]. split.
      - four_sent.
      - intros _. split; reflexivity. }
  repeat step_in H.
  destruct smoothing.
  - rewrite bind_bind in H. step_in H.
    destruct (savgol_filter m raw smooth_window smooth_order) as [y_s|].
    + unfold bind, plt, ret, write_csv in H. world_simpl_in H.
      inversion H; subst r w'; clear H. cbn [tx files plots]. split.
      * four_sent.
      * intros Hne. contradiction Hne. reflexivity.
    + inversion H; subst r w'; clear H. cbn [tx files plots]. split.
      * four_sent.
      * intros _. split; reflexivity.
  - unfold bind, plt, ret, write_csv in H. world_simpl_in H.
    inversion H; subst r w'; clear H. cbn [tx files plots]. split.
    + four_sent.
    + intros Hne. contradiction Hne. reflexivity.
Qed.

Lemma firstn_app_within (A : Type) (l l' : list A) (n : nat) :
  (n <= List.length l)%nat -> firstn n (l ++ l') = firstn n l.
Proof.
  intros H. rewrite firstn_app.
  replace (n - List.length l)%nat with O by lia.
  cbn [firstn]. apply app_nil_r.
Qed.

(** However the loop ends, the commands it has sent are an initial part of
    the channels' commands, and the files it found are still there. *)
Lemma for_each_any (smoothing : bool) (sp now : string) (m : machine)
    (chs : list Z) (w : world) (r : result unit) (w' : world) :
  for_each chs (acquire smoothing sp now m) w = (r, w') ->
  (exists n, tx w' = (tx w ++ firstn n (flat_map channel_commands chs))%list) /\
  firstn (List.length (files w)) (files w') = files w /\
  (List.length (files w') <= List.length (files w) + List.length chs)%nat.
Proof.
  revert w. induction chs as [|ch chs IH]; intros w H.
  - inversion H; subst. split; [|split].
    + exists O. cbn [firstn]. rewrite app_nil_r. reflexivity.
    + apply firstn_all.
    + lia.
  - cbn [for_each] in H. unfold bind in H.
    destruct (acquire smoothing sp now m ch w) as [r1 w1] eqn:E.
    destruct (acquire_any _ _ _ _ _ _ _ _ E) as [(n1 & Hn1 & Ht1 & Hok) Hfail].
    destruct r1 as [[]| |e].
    + destruct (acquire_Ok _ _ _ _ _ _ _ E)
        as (WFID & XUNIT & YUNIT & XINC & XZERO & YM & YZERO & pos & raw
            & smoothed & _ & _ & _ & _ & _ & _ & _ & _ & _ & _ & Hf & _ & Ht).
      destruct (IH w1 H) as ((n & Hn) & Hpre & Hlen).
      rewrite Hf in Hpre, Hlen. rewrite length_app in Hpre, Hlen.
      cbn [List.length] in Hpre, Hlen.
      split; [|split].
      * exists (4 + n)%nat. rewrite Hn, Ht. cbn [flat_map].
        rewrite <- app_assoc. f_equal.
      * apply (f_equal (firstn (List.length (files w)))) in Hpre.
        rewrite firstn_firstn in Hpre.
        rewrite firstn_app, firstn_all in Hpre.
        replace (Nat.min (List.length (files w)) (List.length (files w) + 1))
          with (List.length (files w)) in Hpre by lia.
        replace (List.length (files w) - List.length (files w))%nat with O
          in Hpre by lia.
        cbn [firstn] in Hpre. rewrite app_nil_r in Hpre. exact Hpre.
      * cbn [List.length]. lia.
    + inversion H; subst r w'; clear H.
      destruct Hfail as [Hf _]; [discriminate|].
      split; [|split].
      * exists n1. rewrite Ht1. cbn [flat_map].
        rewrite firstn_app_within by exact Hn1. reflexivity.
      * rewrite Hf. apply firstn_all.
      * rewrite Hf. lia.
    + inversion H; subst r w'; clear H.
      destruct Hfail as [Hf _]; [discriminate|].
      split; [|split].
      * exists n1. rewrite Ht1. cbn [flat_map].
        rewrite firstn_app_within by exact Hn1. reflexivity.
      * rewrite Hf. apply firstn_all.
      * rewrite Hf. lia.
Qed.

(** ** Fields *)

Lemma split_nonempty (sep : ascii) (s : string) : split sep s <> [].
Proof.
  intros H. pose proof (split_length sep s) as Hl. rewrite H in Hl.
  discriminate Hl.
Qed.

(** Joining the fields with the separator gives the line back. *)
Lemma split_fields_join (sep : ascii) (s : string) :
  String.concat (String sep EmptyString) (split sep s) = s.
Proof.
  induction s as [|c r IH]; [reflexivity|].
  cbn [split]. destruct (Ascii.eqb c sep) eqn:Hc.
  - apply Ascii.eqb_eq in Hc. subst c.
    destruct (split sep r) as [|h t] eqn:E;
      [exfalso; exact (split_nonempty sep r E)|].
    rewrite <- IH. reflexivity.
  - destruct (split sep r) as [|h t] eqn:E;
      [exfalso; exact (split_nonempty sep r E)|].
    rewrite <- IH. destruct t; reflexivity.
Qed.

(** ** Strings *)

Lemma port_listed_In (a : args) (m : machine) :
  port_listed a m = true <-> In (COMport a) (comports m).
Proof.
  unfold port_listed. rewrite existsb_exists. split.
  - intros [x [Hin Heq]]. apply String.eqb_eq in Heq. subst x. exact Hin.
  - intros Hin. exists (COMport a). split; [exact Hin | apply String.eqb_refl].
Qed.

Lemma occurs_In (c : ascii) (s : string) :
  occurs c s = true <-> In c (list_ascii_of_string s).
Proof.
  unfold occurs. rewrite existsb_exists. split.
  - intros [x [Hin Heq]]. apply Ascii.eqb_eq in Heq. subst x. exact Hin.
  - intros Hin. exists c. split; [exact Hin | apply Ascii.eqb_refl].
Qed.

(** X1.  [s[:-1]] undoes the terminator: a line made of a text and one more
    character, whatever that character is, gives the text back; the result
    is one character shorter than any line that is not empty, and a read
    that timed out (the empty line) stays empty. *)
Theorem drop_last_terminator (s : string) (c : ascii) :
  drop_last (s ++ String c EmptyString) = s /\
  String.length (drop_last (String c s)) = String.length s /\
  drop_last EmptyString = EmptyString.
Proof.
  repeat split.
  - induction s as [|b s IH]; [reflexivity|].
    cbn [append drop_last]. rewrite IH.
    destruct s; reflexivity.
  - revert c. induction s as [|b s IH]; intros c; [reflexivity|].
    change (drop_last (String c (String b s)))
      with (String c (drop_last (String b s))).
    cbn [String.length]. rewrite IH. reflexivity.
Qed.

Lemma split_cons (sep c : ascii) (r : string) :
  Ascii.eqb c sep = false ->
  exists h t, split sep r = h :: t /\ split sep (String c r) = String c h :: t.
Proof.
  intros Hc. cbn [split]. rewrite Hc.
  destruct (split sep r) as [|h t] eqn:E.
  - pose proof (split_length sep r) as Hl. rewrite E in Hl. discriminate.
  - exists h, t. split; reflexivity.
Qed.

(** X2.  [split] loses nothing: joining the tokens with the separator gives
    the string back, and no token contains the separator. *)
Theorem split_round_trip (sep : ascii) (s : string) :
  String.concat (String sep EmptyString) (split sep s) = s /\
  Forall (fun t => occurs sep t = false) (split sep s).
Proof.
  induction s as [|c r [IHc IHf]].
  - split; [reflexivity|]. repeat constructor.
  - destruct (Ascii.eqb c sep) eqn:Hc.
    + cbn [split]. rewrite Hc. apply Ascii.eqb_eq in Hc. subst c. split.
      * pose proof (split_length sep r) as Hl.
        destruct (split sep r) as [|h t] eqn:E; [discriminate|].
        rewrite <- IHc. reflexivity.
      * constructor; [reflexivity | exact IHf].
    + destruct (split_cons sep c r Hc) as (h & t & E & E').
      rewrite E'. rewrite E in IHc, IHf. split.
      * rewrite <- IHc. destruct t as [|t1 t2]; reflexivity.
      * inversion IHf as [|? ? Hh Ht]; subst.
        constructor; [|exact Ht].
        unfold occurs in *. cbn [list_ascii_of_string existsb].
        rewrite Ascii.eqb_sym, Hc. exact Hh.
Qed.

(** ** Channel selection *)

(** X3.  Whatever the specifier, the selection lists, in ascending order
    and without repeats, exactly the channels 1 to 4 whose digit occurs in
    it: the order and the repetitions of the digits and every other
    character of the specifier are ignored. *)
Theorem ACQ_CH_ascending (s : string) :
  StronglySorted Z.lt (ACQ_CH (Some s)) /\
  forall i, In i (ACQ_CH (Some s)) <->
            (1 <= i <= 4 /\ In (digit_char i) (list_ascii_of_string s)).
Proof.
  rewrite ACQ_CH_digits. split.
  - cbn [filter].
    destruct (occurs (digit_char 1) s), (occurs (digit_char 2) s),
      (occurs (digit_char 3) s), (occurs (digit_char 4) s);
      repeat constructor.
  - intros i. rewrite filter_In, occurs_In. cbn [In]. split.
    + intros [Hi Ho]. split; [lia | exact Ho].
    + intros [Hi Ho]. split; [lia | exact Ho].
Qed.

(** ** Connecting *)

(** X4.  When the requested port is not among the listed ones, the script
    prints its three messages and exits before anything else happens: the
    port is never opened, nothing is sent or read, nothing is plotted or
    written. *)
Theorem unlisted_port_exits (a : args) (m : machine) (device : list string) :
  ~ In (COMport a) (comports m) ->
  run a m device =
  (SysExit,
   {| rx := device; tx := []; is_open := false; close_calls := O;
      stdout := unlisted_messages m; files := []; plots := [] |}).
Proof.
  intros Hnot. apply main_unlisted.
  destruct (port_listed a m) eqn:E; [|reflexivity].
  apply port_listed_In in E. contradiction.
Qed.

(** COM7 is not among COM1 and COM3. *)
Lemma unlisted_port_exits_witness :
  run {| COMport := "COM7"; channels := None; smooth := true;
         save_path := None |} bench (answers setup_answers) =
  (SysExit,
   {| rx := answers setup_answers; tx := []; is_open := false;
      close_calls := O; stdout := unlisted_messages bench; files := [];
      plots := [] |}).
Proof.
  apply (unlisted_port_exits
           {| COMport := "COM7"; channels := None; smooth := true;
              save_path := None |} bench (answers setup_answers)).
  cbn. intros [H|[H|H]]; [discriminate H | discriminate H | exact H].
Defined.

(** X5.  When the listed port does not open, nothing is sent, read, plotted
    or written: if [ser.open()] returns with the port still closed the
    script prints that it cannot open it and exits; if [ser.open()] raises,
    the exception ends the run before any message. *)
Theorem unopened_port_stops (a : args) (m : machine) (device : list string) :
  In (COMport a) (comports m) ->
  open_result m <> Opens ->
  let out := run a m device in
  fst out = match open_result m with
            | StaysClosed => SysExit
            | _ => Raised SerialException
            end /\
  stdout (snd out) = match open_result m with
                     | StaysClosed =>
                         [[CStr "Cannot open "; CStr (COMport a);
                           CStr " serial port. Exiting..."]]
                     | _ => []
                     end /\
  tx (snd out) = [] /\ rx (snd out) = device /\ is_open (snd out) = false /\
  files (snd out) = [] /\ plots (snd out) = [].
Proof.
  intros Hin Hopen out. subst out.
  apply port_listed_In in Hin.
  destruct (open_result m) eqn:E; [contradiction | |].
  - rewrite (main_stays_closed a m device Hin E). repeat split.
  - rewrite (main_open_raises a m device Hin E). repeat split.
Qed.

(** A port that is listed and raises when opened. *)
Lemma unopened_port_stops_witness :
  let m := {| comports := ["COM3"]; open_result := OpenRaises; clock := "";
              savgol_filter := savgol_checks_only |} in
  let out := run (only_channel_1 false) m (answers setup_answers) in
  fst out = Raised SerialException /\ stdout (snd out) = [] /\
  tx (snd out) = [] /\ rx (snd out) = answers setup_answers /\
  is_open (snd out) = false /\ files (snd out) = [] /\ plots (snd out) = [].
Proof.
  cbv zeta.
  apply (unopened_port_stops (only_channel_1 false)
           {| comports := ["COM3"]; open_result := OpenRaises; clock := "";
              savgol_filter := savgol_checks_only |} (answers setup_answers)).
  - left. reflexivity.
  - discriminate.
Defined.

(** X6.  [ser.close()] is called on one path only.  A run that returns has
    called it exactly once and leaves the port closed; a run that exits or
    ends in an exception, wherever that happens, has never called it. *)
Theorem close_only_on_completion (a : args) (m : machine)
    (device : list string) :
  match fst (run a m device) with
  | Ok _ => is_open (snd (run a m device)) = false /\
            close_calls (snd (run a m device)) = 1%nat
  | _ => close_calls (snd (run a m device)) = 0%nat
  end.
Proof.
  destruct (run_cases a m device)
    as [(Hr & Hc & _) | [Hr | (_ & _ & _ & Hr)]].
  - rewrite Hr. exact Hc.
  - rewrite Hr. reflexivity.
  - rewrite Hr.
    match goal with
    | |- context [acquisition ?s ?p ?n ?m ?c ?w] =>
        destruct (acquisition s p n m c w) as [r w'] eqn:E
    end.
    apply closes_on_return_acquisition in E.
    cbn [fst snd]. destruct r as [u| |e]; [exact E | contradiction |].
    destruct E as [_ Hc]. exact Hc.
Qed.

(** ** Configuring *)



(** ** The whole run *)

(** X8.  A run that returns has followed the protocol to the letter: the
    port was listed, the instrument identified itself as expected, and the
    commands sent are the two identification commands, the ten
    configuration commands and, for each selected channel in ascending
    order, its four commands.  Seven lines were read before the loop and
    three per channel, one file was written per channel, and the plot
    calls are [Figure], the title, one or two per channel and [Show]. *)
Theorem completed_run_protocol (a : args) (m : machine) (device : list string)
    (w' : world) :
  run a m device = (Ok tt, w') ->
  let chs := ACQ_CH (channels a) in
  In (COMport a) (comports m) /\
  drop_last (hd "" device) = expected_IDN /\
  tx w' = (identification_commands ++ configuration_commands ++
           flat_map channel_commands chs)%list /\
  rx w' = skipn (7 + 3 * List.length chs) device /\
  List.length (files w') = List.length chs /\
  List.length (plots w') =
    (3 + (if smooth a then 2 else 1) * List.length chs)%nat /\
  last (plots w') Figure = Show.
Proof.
  intros H chs.
  destruct (run_cases a m device)
    as [(Hr & _) | [Hr | (Hport & _ & Hidn & Hr)]].
  - rewrite H in Hr. discriminate Hr.
  - rewrite H in Hr. discriminate Hr.
  - split; [apply port_listed_In; exact Hport|]. split; [exact Hidn|].
    rewrite Hr in H. unfold acquisition in H.
    rewrite !bind_plt in H. unfold bind at 1 in H.
    fold chs in H.
    match type of H with
    | context [for_each chs ?body ?w0] =>
        destruct (for_each chs body w0) as [[[]| |e] w1] eqn:E;
          try discriminate H;
          apply for_each_Ok in E; destruct E as (Ht & Hx & Hf & _ & Hp)
    end.
    unfold bind, plt, ser_close in H. inversion H; subst w'; clear H.
    world_simpl. world_simpl_in Ht. world_simpl_in Hx. world_simpl_in Hf.
    world_simpl_in Hp. unfold configured in *.
    cbn [rx tx files plots] in *.
    repeat split.
    + rewrite Ht, <- app_assoc. reflexivity.
    + rewrite Hx.
      change (tl device) with (skipn 1 device). rewrite !tl_skipn.
      rewrite skipn_skipn_add. reflexivity.
    + exact Hf.
    + rewrite length_app, Hp. cbn [List.length app]. lia.
    + apply last_last.
Qed.

(** The end-to-end scenario, with smoothing off. *)
Lemma completed_run_protocol_witness :
  let device :=
    answers (setup_answers ++ ["CH1"; scenario_preamble; "100,200,300"]) in
  let w' := snd (run (only_channel_1 false) bench device) in
  In "COM3" (comports bench) /\
  drop_last (hd "" device) = expected_IDN /\
  tx w' = (identification_commands ++ configuration_commands ++
           flat_map channel_commands [1])%list /\
  rx w' = skipn (7 + 3 * 1) device /\
  List.length (files w') = 1%nat /\
  List.length (plots w') = (3 + 1 * 1)%nat /\
  last (plots w') Figure = Show.
Proof.
  cbv zeta.
  apply (completed_run_protocol (only_channel_1 false) bench
           (answers (setup_answers ++ ["CH1"; scenario_preamble; "100,200,300"]))).
  vm_compute. reflexivity.
Defined.

(** X9.  Smoothing off means the filter is not consulted: replacing the
    machine's filter by any other changes nothing in the run, neither its
    outcome nor anything sent, printed, plotted or written. *)
Theorem filter_bypassed_without_smoothing (a : args) (m : machine)
    (g : list float64 -> Z -> Z -> option (list float64))
    (device : list string) :
  smooth a = false ->
  run a (with_filter m g) device = run a m device.
Proof.
  intros Hs. unfold run, main. rewrite Hs. reflexivity.
Qed.

(** A filter that rejects everything, against the bench's. *)
Lemma filter_bypassed_without_smoothing_witness :
  let device :=
    answers (setup_answers ++ ["CH1"; scenario_preamble; "100,200,300"]) in
  run (only_channel_1 false) (with_filter bench (fun _ _ _ => None)) device =
  run (only_channel_1 false) bench device.
Proof.
  cbv zeta.
  apply (filter_bypassed_without_smoothing (only_channel_1 false) bench
           (fun _ _ _ => None)).
  reflexivity.
Defined.

(** ** One channel *)

(** X10.  The file of a channel is put in the save directory under the
    name made of the timestamp, a blank, the echoed data source and
    [.csv], with every colon of the timestamp and of the echo turned into
    a hyphen: the name contains no colon. *)
Theorem file_name_has_no_colon (smoothing : bool) (sp now : string)
    (m : machine) (ch : Z) (w w' : world) :
  acquire smoothing sp now m ch w = (Ok tt, w') ->
  exists f,
    files w' = (files w ++ [f])%list /\
    file_dir f = sp /\
    file_name f =
      (replace ":"%char "-"%char now ++ " " ++
       replace ":"%char "-"%char (drop_last (hd "" (rx w))) ++ ".csv")%string /\
    occurs ":"%char (file_name f) = false.
Proof.
  intros H.
  destruct (acquire_Ok _ _ _ _ _ _ _ H)
    as (WFID & XUNIT & YUNIT & XINC & XZERO & YM & YZERO & pos & raw & smoothed
        & _ & _ & _ & _ & _ & _ & _ & _ & _ & _ & Hf & _ & _).
  eexists. split; [exact Hf|].
  unfold channel_file. cbn [file_dir file_name].
  split; [reflexivity|]. split.
  - rewrite !replace_app. reflexivity.
  - apply replace_clean. discriminate.
Qed.

(** A timestamp with two colons. *)
Lemma file_name_has_no_colon_witness :
  let w := at_loop (channel_answers "CH1" scenario_preamble "100,200,300") in
  exists f,
    files (snd (acquire false "data" "2024-01-02 03:04:05" bench 1 w)) =
      (files w ++ [f])%list /\
    file_dir f = "data" /\
    file_name f =
      (replace ":"%char "-"%char "2024-01-02 03:04:05" ++ " " ++
       replace ":"%char "-"%char (drop_last (hd "" (rx w))) ++ ".csv")%string /\
    occurs ":"%char (file_name f) = false.
Proof.
  cbv zeta.
  apply (file_name_has_no_colon false "data" "2024-01-02 03:04:05" bench 1
           (at_loop (channel_answers "CH1" scenario_preamble "100,200,300"))).
  vm_compute. reflexivity.
Defined.

(** X11.  A preamble of fewer than twelve fields, in particular the empty
    line of a query that timed out, ends the channel with an [IndexError]
    before any number is parsed: three commands have been sent, two lines
    read, and nothing is plotted or written. *)
Theorem short_preamble_is_an_IndexError (smoothing : bool) (sp now : string)
    (m : machine) (ch : Z) (w : world) :
  is_open w = true ->
  (List.length (split ";"%char (drop_last (hd "" (tl (rx w))))) < 12)%nat ->
  exists w',
    acquire smoothing sp now m ch w = (Raised IndexError, w') /\
    tx w' = (tx w ++ firstn 3 (channel_commands ch))%list /\
    rx w' = skipn 2 (rx w) /\
    files w' = files w /\ plots w' = plots w /\ is_open w' = true.
Proof.
  intros Ho Hlen.
  destruct (acquire smoothing sp now m ch w) as [res w'] eqn:H.
  destruct w as [rx0 tx0 io cc so fi pl]. simpl in Ho. subst io.
  cbn [rx tx files plots is_open] in *.
  unfold acquire in H. repeat step_in H.
  replace (skipn 2 rx0) with (tl (tl rx0))
    by (destruct rx0 as [|? [|? ?]]; reflexivity).
  do 2 (match type of H with
        | match ?o with Some _ => _ | None => _ end = _ =>
            let E := fresh "E" in
            destruct o eqn:E;
            [ repeat step_in H
            | inversion H; subst res w'; clear H;
              eexists; split; [reflexivity|];
              cbn [rx tx files plots is_open firstn channel_commands];
              rewrite <- !app_assoc; repeat split; reflexivity ]
        end).
  exfalso.
  match goal with
  | E : item _ 11 = Some _ |- _ =>
      assert (Hsome : item (split ";"%char (drop_last (hd "" (tl rx0)))) 11 <> None)
        by (rewrite E; discriminate)
  end.
  unfold item in Hsome. apply nth_error_Some in Hsome. lia.
Qed.

(** The instrument echoes the source and then stays silent. *)
Lemma short_preamble_is_an_IndexError_witness :
  let w := at_loop (answers ["CH1"]) in
  exists w',
    acquire true "." "now" bench 1 w = (Raised IndexError, w') /\
    tx w' = (tx w ++ firstn 3 (channel_commands 1))%list /\
    rx w' = skipn 2 (rx w) /\
    files w' = files w /\ plots w' = plots w /\ is_open w' = true.
Proof.
  cbv zeta.
  apply (short_preamble_is_an_IndexError true "." "now" bench 1
           (at_loop (answers ["CH1"]))).
  - reflexivity.
  - vm_compute. lia.
Defined.

(** X12.  With a preamble that reads, one token of the curve that is not a
    number (the empty curve of a query that timed out is such a token) ends
    the channel with a [ValueError] once all four commands have been sent
    and three lines read: nothing is plotted or written for the channel. *)
Theorem bad_curve_token_is_a_ValueError (smoothing : bool) (sp now : string)
    (m : machine) (ch : Z) (w : world) (d : string) :
  let ch_conf := split ";"%char (drop_last (hd "" (tl (rx w)))) in
  let curve := drop_last (hd "" (tl (tl (rx w)))) in
  is_open w = true ->
  ~ malformed ch_conf ->
  In d (split ","%char curve) ->
  float d = None ->
  exists w',
    acquire smoothing sp now m ch w = (Raised ValueError, w') /\
    tx w' = (tx w ++ channel_commands ch)%list /\ rx w' = skipn 3 (rx w) /\
    files w' = files w /\ plots w' = plots w.
Proof.
  intros ch_conf curve Ho Hwf Hin Hd.
  destruct (number ch_conf 12) as [YM|] eqn:H12.
  - destruct (acquire_reads_preamble smoothing sp now m ch w YM Ho Hwf H12)
      as [Hbad _].
    apply Hbad. apply (decode_Y_bad_token YM _ d Hin Hd).
  - exfalso. apply Hwf. unfold malformed. tauto.
Qed.

(** The preamble of the scenario, then silence instead of a curve. *)
Lemma bad_curve_token_is_a_ValueError_witness :
  let w := at_loop (answers ["CH1"; scenario_preamble]) in
  exists w',
    acquire false "." "now" bench 1 w = (Raised ValueError, w') /\
    tx w' = (tx w ++ channel_commands 1)%list /\ rx w' = skipn 3 (rx w) /\
    files w' = files w /\ plots w' = plots w.
Proof.
  cbv zeta.
  apply (bad_curve_token_is_a_ValueError false "." "now" bench 1
           (at_loop (answers ["CH1"; scenario_preamble])) "").
  - reflexivity.
  - intros [H|[H|[H|[H|[H|H]]]]]; vm_compute in H;
      first [lia | discriminate H].
  - left. reflexivity.
  - reflexivity.
Defined.


(** ** Any outcome *)

(** X14.  Whatever the instrument answers and however the run ends, what
    has been sent is an initial part of the protocol: the two
    identification commands, the ten configuration commands, then the four
    commands of each selected channel in ascending order.  No command is
    ever sent out of this order, repeated or skipped. *)
Theorem commands_follow_the_protocol (a : args) (m : machine)
    (device : list string) :
  exists n,
    tx (snd (run a m device)) =
    firstn n (identification_commands ++ configuration_commands ++
              flat_map channel_commands (ACQ_CH (channels a))).
Proof.
  destruct (run_cases a m device)
    as [(_ & _ & Ht & _) | [Hr | (_ & _ & _ & Hr)]].
  - exists (List.length (tx (snd (run a m device)))).
    rewrite firstn_app_within; [exact Ht|].
    rewrite Ht at 1. rewrite length_firstn. apply Nat.le_min_r.
  - exists O. rewrite Hr. reflexivity.
  - rewrite Hr. unfold acquisition. rewrite !bind_plt. unfold bind at 1.
    match goal with
    | |- context [for_each ?chs ?body ?w0] =>
        destruct (for_each chs body w0) as [r1 w1] eqn:E;
          apply for_each_any in E; destruct E as ((n & Hn) & _)
    end.
    world_simpl_in Hn. unfold configured in Hn. cbn [tx] in Hn.
    exists (12 + n)%nat.
    match goal with
    | |- tx (snd ?x) = _ => destruct x as [r w2] eqn:Ex
    end.
    assert (Htx : tx w2 = tx w1) by (destruct r1; inversion Ex; reflexivity).
    cbn [snd]. rewrite Htx, Hn. reflexivity.
Qed.





(** X17.  A specifier that selects no channel does not stop the script:
    with the right instrument on the port it identifies, configures, opens
    an empty figure, shows it, closes the port and returns, having written
    no file. *)
Theorem empty_selection_still_runs (a : args) (m : machine)
    (device : list string) :
  In (COMport a) (comports m) ->
  open_result m = Opens ->
  drop_last (hd "" device) = expected_IDN ->
  ACQ_CH (channels a) = [] ->
  let out := run a m device in
  fst out = Ok tt /\
  tx (snd out) = (identification_commands ++ configuration_commands)%list /\
  plots (snd out) = [Figure; Suptitle "Acquired data"; Show] /\
  files (snd out) = [] /\
  is_open (snd out) = false /\ close_calls (snd out) = 1%nat.
Proof.
  intros Hport Hopen Hidn Hch out. subst out.
  apply port_listed_In in Hport.
  rewrite (main_identified_acquisition a m device Hport Hopen Hidn), Hch.
  repeat split.
Qed.

(** The empty specifier. *)
Lemma empty_selection_still_runs_witness :
  let a := {| COMport := "COM3"; channels := Some ""; smooth := false;
              save_path := None |} in
  let out := run a bench (answers setup_answers) in
  fst out = Ok tt /\
  tx (snd out) = (identification_commands ++ configuration_commands)%list /\
  plots (snd out) = [Figure; Suptitle "Acquired data"; Show] /\
  files (snd out) = [] /\
  is_open (snd out) = false /\ close_calls (snd out) = 1%nat.
Proof.
  cbv zeta.
  apply (empty_selection_still_runs
           {| COMport := "COM3"; channels := Some ""; smooth := false;
              save_path := None |} bench (answers setup_answers)).
  - right. left. reflexivity.
  - reflexivity.
  - reflexivity.
  - reflexivity.
Defined.

(** X18.  The two header rows of a channel's file: the first holds the
    fields of the preamble, from which the preamble line as received (less
    its terminator) is recovered by joining them with semicolons; the
    second names the columns with the units of fields 11 and 15, two
    columns without smoothing and three with it. *)
Theorem file_header_keeps_the_preamble (smoothing : bool) (sp now : string)
    (m : machine) (ch : Z) (w w' : world) :
  acquire smoothing sp now m ch w = (Ok tt, w') ->
  exists f ch_conf XUNIT YUNIT,
    files w' = (files w ++ [f])%list /\
    firstn 2 (file_rows f) =
      [[CList ch_conf];
       if smoothing
       then [CStr ("Time, " ++ XUNIT); CStr ("Voltage, " ++ YUNIT);
             CStr ("Smoothed Voltage, " ++ YUNIT)]
       else [CStr ("Time, " ++ XUNIT); CStr ("Voltage, " ++ YUNIT)]] /\
    String.concat ";" ch_conf = drop_last (hd "" (tl (rx w))) /\
    item ch_conf 11 = Some XUNIT /\ item ch_conf 15 = Some YUNIT.
Proof.
  intros H.
  destruct (acquire_Ok _ _ _ _ _ _ _ H)
    as (WFID & XUNIT & YUNIT & XINC & XZERO & YM & YZERO & pos & raw & smoothed
        & _ & H11 & H15 & _ & _ & _ & _ & _ & _ & _ & Hf & _ & _).
  eexists. exists (split ";"%char (drop_last (hd "" (tl (rx w))))), XUNIT, YUNIT.
  split; [exact Hf|].
  split; [unfold channel_file, csv_rows; destruct smoothing; reflexivity|].
  split; [apply (split_fields_join ";"%char) | split; assumption].
Qed.

(** The preamble of the scenario, with smoothing. *)
Lemma file_header_keeps_the_preamble_witness :
  let w := at_loop (channel_answers "CH1" scenario_preamble eleven_samples) in
  exists f ch_conf XUNIT YUNIT,
    files (snd (acquire true "." "now" bench 1 w)) = (files w ++ [f])%list /\
    firstn 2 (file_rows f) =
      [[CList ch_conf];
       [CStr ("Time, " ++ XUNIT); CStr ("Voltage, " ++ YUNIT);
        CStr ("Smoothed Voltage, " ++ YUNIT)]] /\
    String.concat ";" ch_conf = drop_last (hd "" (tl (rx w))) /\
    item ch_conf 11 = Some XUNIT /\ item ch_conf 15 = Some YUNIT.
Proof.
  cbv zeta.
  apply (file_header_keeps_the_preamble true "." "now" bench 1
           (at_loop (channel_answers "CH1" scenario_preamble eleven_samples))).
  vm_compute. reflexivity.
Defined.
